(** * Activity log of the storefront frontend: store, repository,
      classifier and middleware

    A shallow embedding of the Go package [activitylog] (database.go,
    the repository file and middleware.go) and the properties its
    specification states about it.

    Conventions of the embedding:
    - Go [int] / [int64] values are [Z]; a [time.Time] is its instant
      together with the text the sqlite3 driver stores for it.
    - Package-level variables ([db], [once]) are fields of [State].
    - A Go function is a computation in the monad [M]: it runs on a
      [State], ends by returning or by panicking, and leaves a state
      behind in both cases (a panic rolls nothing back).
    - Calls that leave the process (file system, database driver, the
      clock) are answered by an [Env]: it fixes the current time and,
      for every kind of external step, whether that step fails. *)

From stdpp Require Import base strings list gmap sorting.
From Stdlib Require Import ZArith Lia.

Set Default Proof Using "Type".

(** ** Data model *)

(** [time.Time], as far as this package uses it: the instant, in
    nanoseconds since the Unix epoch, and the text the sqlite3 driver
    binds for the value (layout [2006-01-02 15:04:05.999999999-07:00],
    which carries the zone offset of the value's location). The
    database stores that text, and compares and sorts by it. *)
Record Time := mkTime { instant : Z; stamp : string }.
Bind Scope Z_scope with Time.

(** The zero [time.Time]: January 1 of year 1, 00:00:00 UTC. *)
Definition zero_time : Time :=
  {| instant := -62135596800000000000; stamp := "0001-01-01 00:00:00+00:00" |}.

(** Examples write a time as a number [k], meaning the time [k] seconds
    after the Unix epoch in UTC, for [0 <= k < 60]. *)
Definition decimal_digit (k : Z) : Ascii.ascii :=
  Ascii.ascii_of_N (Z.to_N (48 + k mod 10)).

Definition epoch_second (k : Z) : Time :=
  {| instant := k * 1000000000;
     stamp := "1970-01-01 00:00:"
              +:+ String (decimal_digit (k / 10)) (String (decimal_digit k) "")
              +:+ "+00:00" |}.
Coercion epoch_second : Z >-> Time.

(** [type ActivityLog struct] *)
Record ActivityLog := mkActivityLog {
  ID : Z;
  SessionID : string;
  RequestID : string;
  ActivityType : string;
  Path : string;
  Method : string;
  StatusCode : Z;
  UserCurrency : string;
  Details : string;
  CreatedAt : Time
}.

(** Go [error] values met in this package. [EnvError] is whatever the
    operating system or the driver reports. *)
Inductive error :=
  | EnvError (msg : string)
  | ErrDBClosed
  | ErrNoSuchTable
  | ErrScan.

(** What the package hands to [Exec] and [Query]. [CreateSchema] is
    the [schema] string, four SQL statements in one [Exec]. The INSERT
    carries its nine bound parameters, in the order of the
    placeholders. *)
Inductive Stmt :=
  | PragmaWAL
  | CreateSchema
  | InsertActivity (session_id request_id activity_type path method : string)
                   (status_code : Z) (user_currency details : string)
                   (created_at : Time)
  | SelectBySession (session_id : string) (limit : Z)
  | SelectRecent (limit : Z)
  | SelectStats (start_time end_time : Time).

(** The four SQL statements of the [schema] string, in its order. The
    driver runs them one by one when the string is handed to [Exec]. *)
Inductive SchemaStmt :=
  | CreateTableActivities
  | CreateIndexSession
  | CreateIndexCreatedAt
  | CreateIndexActivityType.

Definition schema : list SchemaStmt :=
  [CreateTableActivities; CreateIndexSession; CreateIndexCreatedAt;
   CreateIndexActivityType].

(** External steps that can fail. Opening the database is not among
    them: [sql.Open] with a registered driver only builds the handle;
    the file is opened by the first statement, so a file that cannot be
    opened fails the pragma. *)
Inductive Step :=
  | StepMkdir | StepPragma | StepSchema (part : SchemaStmt)
  | StepInsert | StepSelect | StepClose.

#[global] Instance SchemaStmt_eq_dec : EqDecision SchemaStmt.
Proof. solve_decision. Defined.
#[global] Instance Step_eq_dec : EqDecision Step.
Proof. solve_decision. Defined.

(** The step of a statement that is a single SQL statement. *)
Definition step_of (st : Stmt) : option Step :=
  match st with
  | PragmaWAL => Some StepPragma
  | CreateSchema => None
  | InsertActivity _ _ _ _ _ _ _ _ _ => Some StepInsert
  | SelectBySession _ _ | SelectRecent _ | SelectStats _ _ => Some StepSelect
  end.

(** What the outside world answers during one call: the clock, which
    steps fail, and whether iterating a result set breaks off after
    some rows ([rows.Err()]). *)
Record Env := mkEnv {
  clock : Time;
  fault : Step -> option error;
  cut : option (nat * error)
}.

Definition healthy (now : Time) : Env :=
  {| clock := now; fault := fun _ => None; cut := None |}.

Definition failing_at (now : Time) (bad : Step -> bool) (x : error) : Env :=
  {| clock := now; fault := fun st => if bad st then Some x else None;
     cut := None |}.

(** The database file and its directory: whether the table
    [activities] exists ([has_schema]) and each of its three indexes,
    the rows, and [seq], the largest row id ever handed out
    (AUTOINCREMENT). *)
Record Disk := mkDisk {
  data_dir : bool;
  journal_wal : bool;
  has_schema : bool;
  idx_session : bool;
  idx_created_at : bool;
  idx_activity_type : bool;
  rows : list ActivityLog;
  seq : Z
}.

Definition set_data_dir (b : bool) (d : Disk) : Disk :=
  mkDisk b (journal_wal d) (has_schema d) (idx_session d) (idx_created_at d)
    (idx_activity_type d) (rows d) (seq d).
Definition set_journal_wal (b : bool) (d : Disk) : Disk :=
  mkDisk (data_dir d) b (has_schema d) (idx_session d) (idx_created_at d)
    (idx_activity_type d) (rows d) (seq d).
Definition set_has_schema (b : bool) (d : Disk) : Disk :=
  mkDisk (data_dir d) (journal_wal d) b (idx_session d) (idx_created_at d)
    (idx_activity_type d) (rows d) (seq d).
Definition set_index (i : SchemaStmt) (d : Disk) : Disk :=
  match i with
  | CreateTableActivities => d
  | CreateIndexSession =>
      mkDisk (data_dir d) (journal_wal d) (has_schema d) true (idx_created_at d)
        (idx_activity_type d) (rows d) (seq d)
  | CreateIndexCreatedAt =>
      mkDisk (data_dir d) (journal_wal d) (has_schema d) (idx_session d) true
        (idx_activity_type d) (rows d) (seq d)
  | CreateIndexActivityType =>
      mkDisk (data_dir d) (journal_wal d) (has_schema d) (idx_session d)
        (idx_created_at d) true (rows d) (seq d)
  end.

(** A pointer to [sql.DB]: non-nil is [Some]; [Close] flips [closed]. *)
Record DB := mkDB { dsn : string; closed : bool }.

Inductive LogLine :=
  | Infof (msg : string)
  | Warnf (msg : string) (e : error).

(** Process state: the two package variables, the disk, the statements
    that reached the driver (in order), and the logger's output. *)
Record State := mkState {
  db : option DB;
  once : bool;
  disk : Disk;
  issued : list Stmt;
  logged : list LogLine
}.

Definition set_db (h : option DB) (s : State) : State :=
  {| db := h; once := once s; disk := disk s; issued := issued s; logged := logged s |}.
Definition set_once (b : bool) (s : State) : State :=
  {| db := db s; once := b; disk := disk s; issued := issued s; logged := logged s |}.
Definition set_disk (d : Disk) (s : State) : State :=
  {| db := db s; once := once s; disk := d; issued := issued s; logged := logged s |}.
Definition add_issued (st : Stmt) (s : State) : State :=
  {| db := db s; once := once s; disk := disk s; issued := issued s ++ [st]; logged := logged s |}.
Definition add_logged (l : LogLine) (s : State) : State :=
  {| db := db s; once := once s; disk := disk s; issued := issued s; logged := logged s ++ [l] |}.

(** The state of a process that has just started, on a given disk. *)
Definition boot (d : Disk) : State :=
  {| db := None; once := false; disk := d; issued := []; logged := [] |}.

Definition blank_disk : Disk :=
  {| data_dir := false; journal_wal := false; has_schema := false;
     idx_session := false; idx_created_at := false; idx_activity_type := false;
     rows := []; seq := 0%Z |}.

(** ** The monad of Go calls *)

Inductive panic :=
  | NilDereference
  | TypeAssertion
  | Uninitialized.

Inductive outcome (A : Type) :=
  | Ret (a : A)
  | Panic (p : panic).
Arguments Ret {A} a.
Arguments Panic {A} p.

Definition M (A : Type) : Type := State -> outcome A * State.

#[global] Instance M_ret : MRet M := fun A a s => (Ret a, s).
#[global] Instance M_bind : MBind M := fun A B f m s =>
  match m s with
  | (Ret a, s') => f a s'
  | (Panic p, s') => (Panic p, s')
  end.

Definition get : M State := fun s => (Ret s, s).
Definition modify (f : State -> State) : M unit := fun s => (Ret tt, f s).
Definition throw {A} (p : panic) : M A := fun s => (Panic p, s).

(** State left behind by a call, whatever its outcome. *)
Definition after {A} (m : M A) (s : State) : State := snd (m s).
Definition result {A} (m : M A) (s : State) : outcome A := fst (m s).

(** ** The SQL engine

    What SQLite does with each statement when nothing goes wrong. The
    column [created_at] holds the driver's text of a timestamp; SQLite
    compares two such values as text, byte by byte, a proper prefix
    being the smaller. *)

(** ORDER BY created_at DESC: the row with the greater stored text
    comes first; of two rows with the same text, the one with the
    greater id. *)
Definition precedes (a b : ActivityLog) : bool :=
  match String.compare (stamp (CreatedAt a)) (stamp (CreatedAt b)) with
  | Gt => true
  | Lt => false
  | Eq => (ID b <=? ID a)%Z
  end.

Fixpoint insert_desc (a : ActivityLog) (l : list ActivityLog) : list ActivityLog :=
  match l with
  | [] => [a]
  | b :: l' =>
      if precedes a b then a :: b :: l'
      else b :: insert_desc a l'
  end.

Definition order_by_created_at_desc (l : list ActivityLog) : list ActivityLog :=
  foldr insert_desc [] l.

(** LIMIT n: a negative bound means no bound. *)
Definition sql_limit (n : Z) (l : list ActivityLog) : list ActivityLog :=
  if (n <? 0)%Z then l else take (Z.to_nat n) l.

(** WHERE created_at BETWEEN lo AND hi, the two bounds being bound as
    the driver's text of [lo] and [hi]. *)
Definition between (lo hi : Time) (a : ActivityLog) : bool :=
  String.leb (stamp lo) (stamp (CreatedAt a))
  && String.leb (stamp (CreatedAt a)) (stamp hi).

(** GROUP BY activity_type with COUNT( * ): one output row per type that
    occurs, carrying the number of its occurrences. *)
Fixpoint bump (t : string) (g : list (string * Z)) : list (string * Z) :=
  match g with
  | [] => [(t, 1%Z)]
  | (k, n) :: g' =>
      if String.eqb k t then (k, (n + 1)%Z) :: g' else (k, n) :: bump t g'
  end.

Fixpoint group_count (l : list ActivityLog) : list (string * Z) :=
  match l with
  | [] => []
  | a :: l' => bump (ActivityType a) (group_count l')
  end.

(** The three SELECT statements of the package. *)
Definition select_by_session (sid : string) (n : Z) (d : Disk) : list ActivityLog :=
  sql_limit n
    (order_by_created_at_desc (filter (fun a => SessionID a = sid) (rows d))).

Definition select_recent (n : Z) (d : Disk) : list ActivityLog :=
  sql_limit n (order_by_created_at_desc (rows d)).

Definition select_stats (t0 t1 : Time) (d : Disk) : list (string * Z) :=
  group_count (filter (fun a => between t0 t1 a = true) (rows d)).

(** Most recent first: by the instants of creation. *)
Definition newest_first (a b : ActivityLog) : Prop :=
  (instant (CreatedAt b) ≤ instant (CreatedAt a))%Z.

(** Greatest stored text first: the order ORDER BY produces. *)
Definition stored_desc (a b : ActivityLog) : Prop :=
  String.leb (stamp (CreatedAt b)) (stamp (CreatedAt a)) = true.

Inductive Rows :=
  | NoRows
  | ActivityRows (l : list ActivityLog)
  | StatRows (l : list (string * Z)).

Definition set_rows (l : list ActivityLog) (n : Z) (d : Disk) : Disk :=
  mkDisk (data_dir d) (journal_wal d) (has_schema d) (idx_session d)
    (idx_created_at d) (idx_activity_type d) l n.

(** One statement of the schema. CREATE TABLE IF NOT EXISTS keeps an
    existing table and its rows; CREATE INDEX IF NOT EXISTS needs the
    table. *)
Definition run_schema_stmt (p : SchemaStmt) (d : Disk) : error + Disk :=
  match p with
  | CreateTableActivities => inr (set_has_schema true d)
  | _ => if has_schema d then inr (set_index p d) else inl ErrNoSuchTable
  end.

(** A string of schema statements, run one after the other. *)
Fixpoint run_schema_stmts (ps : list SchemaStmt) (d : Disk) : error + Disk :=
  match ps with
  | [] => inr d
  | p :: ps' =>
      match run_schema_stmt p d with
      | inl x => inl x
      | inr d' => run_schema_stmts ps' d'
      end
  end.

(** One [Exec] or [Query] against the file when the environment fails
    nothing: the new file and the rows of the result, or the error of
    the engine. *)
Definition run_stmt (st : Stmt) (d : Disk) : error + (Disk * Rows) :=
  match st with
  | PragmaWAL => inr (set_journal_wal true d, NoRows)
  | CreateSchema =>
      match run_schema_stmts schema d with
      | inl x => inl x
      | inr d' => inr (d', NoRows)
      end
  | InsertActivity sid rid ty p m sc cur det t =>
      if has_schema d then
        let id := (seq d + 1)%Z in
        inr (set_rows (rows d ++ [mkActivityLog id sid rid ty p m sc cur det t]) id d,
             NoRows)
      else inl ErrNoSuchTable
  | SelectBySession sid n =>
      if has_schema d then inr (d, ActivityRows (select_by_session sid n d))
      else inl ErrNoSuchTable
  | SelectRecent n =>
      if has_schema d then inr (d, ActivityRows (select_recent n d))
      else inl ErrNoSuchTable
  | SelectStats t0 t1 =>
      if has_schema d then inr (d, StatRows (select_stats t0 t1 d))
      else inl ErrNoSuchTable
  end.

(** ** database/sql and os, as seen from this package *)

(** [os.MkdirAll(dataDir, 0755)] *)
Definition os_MkdirAll (e : Env) : M (option error) := fun s =>
  match fault e StepMkdir with
  | Some x => (Ret (Some x), s)
  | None => (Ret None, set_disk (set_data_dir true (disk s)) s)
  end.

(** [sql.Open("sqlite3", dbPath)]: the driver is registered by the blank
    import, so the call returns a handle and a nil error, and touches
    neither the file nor the state. *)
Definition sql_Open (e : Env) (path : string) : M (option DB * option error) := fun s =>
  (Ret (Some {| dsn := path; closed := false |}, None), s).

(** The schema string under an environment: the statements run in
    order until one fails; what ran before the failure stays done. *)
Fixpoint exec_schema (e : Env) (ps : list SchemaStmt) (d : Disk) : Disk * option error :=
  match ps with
  | [] => (d, None)
  | p :: ps' =>
      match fault e (StepSchema p) with
      | Some x => (d, Some x)
      | None =>
          match run_schema_stmt p d with
          | inl x => (d, Some x)
          | inr d' => exec_schema e ps' d'
          end
      end
  end.

(** Sending one [Exec] or [Query] through a [sql.DB] pointer. A nil
    receiver panics; a closed handle refuses before anything reaches
    the driver. The schema string is run statement by statement, and
    what ran before a failing statement stays done; a single statement
    fails and changes nothing, or takes effect. *)
Definition send (e : Env) (h : option DB) (st : Stmt) : M (Rows * option error) := fun s =>
  match h with
  | None => (Panic NilDereference, s)
  | Some c =>
      if closed c then (Ret (NoRows, Some ErrDBClosed), s)
      else
        let s1 := add_issued st s in
        match step_of st with
        | None =>
            let '(d, err) := exec_schema e schema (disk s1) in
            (Ret (NoRows, err), set_disk d s1)
        | Some stp =>
            match fault e stp with
            | Some x => (Ret (NoRows, Some x), s1)
            | None =>
                match run_stmt st (disk s1) with
                | inl x => (Ret (NoRows, Some x), s1)
                | inr (d, r) => (Ret (r, None), set_disk d s1)
                end
            end
        end
  end.

(** [DB.Exec] of database/sql: the result is dropped, the error kept. *)
Definition db_Exec (e : Env) (h : option DB) (st : Stmt) : M (option error) :=
  '(_, err) ← send e h st; mret err.

(** [DB.Query] of database/sql *)
Definition db_Query (e : Env) (h : option DB) (st : Stmt) : M (Rows * option error) :=
  send e h st.

(** [for rows.Next() { ... }] followed by [rows.Err()]: the rows that
    were delivered, and the error that ended the iteration, if any. *)
Definition iterate {A} (e : Env) (l : list A) : list A * option error :=
  match cut e with
  | Some (k, x) => if decide (k < length l) then (take k l, Some x) else (l, None)
  | None => (l, None)
  end.

(** ** Store (database.go) *)

Definition dbFileName : string := "activities.db".
Definition dataDir : string := "data".
(** [filepath.Join(dataDir, dbFileName)] *)
Definition dbPath : string := dataDir +:+ "/" +:+ dbFileName.

(** [sync.Once.Do]: the first call runs [f] and marks the Once as done,
    also when [f] panics; every later call does nothing. [skipped] is
    what the caller is left with when [f] is not run. *)
Definition once_Do {A} (f : M A) (skipped : A) : M A := fun s =>
  if once s then (Ret skipped, s)
  else let '(r, s') := f s in (r, set_once true s').

(** The function literal passed to [once.Do] in [InitDB]. It assigns the
    captured variable [err]; here it returns that value. *)
Definition init_closure (e : Env) : M (option error) :=
  err ← os_MkdirAll e;
  if err is Some _ then mret err else
  '(h, err) ← sql_Open e dbPath;
  _ ← modify (set_db h);
  if err is Some _ then mret err else
  s ← get;
  err ← db_Exec e (db s) PragmaWAL;
  if err is Some _ then mret err else
  s ← get;
  err ← db_Exec e (db s) CreateSchema;
  if err is Some _ then mret err else
  _ ← modify (add_logged (Infof ("Activity logging database initialized at: " +:+ dbPath)));
  mret None.

(** [func InitDB(log logrus.FieldLogger) error]: [var err error] starts
    as nil and is what is returned when the closure is skipped. The
    logger's output is the [logged] field of the state. *)
Definition InitDB (e : Env) : M (option error) :=
  once_Do (init_closure e) None.

(** [func GetDB()], returning a pointer to [sql.DB] *)
Definition GetDB : M (option DB) :=
  s ← get; mret (db s).

(** [func CloseDB() error]: [db.Close()] closes the handle and returns
    what closing the connections reported. *)
Definition CloseDB (e : Env) : M (option error) :=
  s ← get;
  match db s with
  | Some c =>
      _ ← modify (set_db (Some {| dsn := dsn c; closed := true |}));
      mret (fault e StepClose)
  | None => mret None
  end.

(** ** Repository *)

(** Common activity types *)
Definition ActivityTypePageView : string := "page_view".
Definition ActivityTypeAddToCart : string := "add_to_cart".
Definition ActivityTypeEmptyCart : string := "empty_cart".
Definition ActivityTypeCheckout : string := "checkout".
Definition ActivityTypeCurrencyChange : string := "currency_change".
Definition ActivityTypeProductView : string := "product_view".

(** [func LogActivity(activity *ActivityLog) error]: one [Exec] on
    [GetDB()], with [time.Now()] as the ninth parameter. *)
Definition LogActivity (e : Env) (activity : ActivityLog) : M (option error) :=
  h ← GetDB;
  db_Exec e h
    (InsertActivity (SessionID activity) (RequestID activity)
       (ActivityType activity) (Path activity) (Method activity)
       (StatusCode activity) (UserCurrency activity) (Details activity)
       (clock e)).

(** The scanning loop of [queryActivities]: ten destinations per row.
    A row of another shape makes [rows.Scan] fail. *)
Definition scan_activities (e : Env) (r : Rows) : list ActivityLog * option error :=
  match r with
  | ActivityRows l => iterate e l
  | StatRows l =>
      match iterate e l with
      | ([], err) => ([], err)
      | (_ :: _, _) => ([], Some ErrScan)
      end
  | NoRows => ([], None)
  end.

(** [func queryActivities(query string, args ...interface{})] *)
Definition queryActivities (e : Env) (query : Stmt) : M (list ActivityLog * option error) :=
  h ← GetDB;
  '(rs, err) ← db_Query e h query;
  if err is Some _ then mret ([], err) else
  mret (scan_activities e rs).

(** [func GetActivitiesBySession(sessionID string, limit int)] *)
Definition GetActivitiesBySession (e : Env) (sessionID : string) (limit : Z)
  : M (list ActivityLog * option error) :=
  queryActivities e (SelectBySession sessionID limit).

(** [func GetRecentActivities(limit int)] *)
Definition GetRecentActivities (e : Env) (limit : Z)
  : M (list ActivityLog * option error) :=
  queryActivities e (SelectRecent limit).

(** The scanning loop of [GetActivityStats]:
    [stats[activityType] = count] for every delivered row. *)
Definition collect_stats (l : list (string * Z)) : gmap string Z :=
  foldl (fun stats row => <[row.1 := row.2]> stats) ∅ l.

Definition scan_stats (e : Env) (r : Rows) : option (gmap string Z) * option error :=
  match r with
  | StatRows l => let '(got, err) := iterate e l in (Some (collect_stats got), err)
  | ActivityRows l =>
      match iterate e l with
      | ([], err) => (Some ∅, err)
      | (_ :: _, _) => (None, Some ErrScan)
      end
  | NoRows => (Some ∅, None)
  end.

(** [func GetActivityStats(startTime, endTime time.Time)] *)
Definition GetActivityStats (e : Env) (startTime endTime : Time)
  : M (option (gmap string Z) * option error) :=
  h ← GetDB;
  '(rs, err) ← db_Query e h (SelectStats startTime endTime);
  if err is Some _ then mret (None, err) else
  mret (scan_stats e rs).

(** ** Requests, routes and response writers *)

Module mux.
(** A matched route. [GetPathTemplate] answers the template, or the
    empty string and an error when the route has none. *)
Record Route := mkRoute { template : option string }.

Definition GetPathTemplate (rt : Route) : string * option error :=
  match template rt with
  | Some t => (t, None)
  | None => ("", Some (EnvError "mux: route doesn't have a path"))
  end.
End mux.

Module http.
Record Request := mkRequest {
  Method : string;
  URL_Path : string;
  (** [mux.CurrentRoute(r)]: nil when no route matched *)
  CurrentRoute : option mux.Route;
  (** [mux.Vars(r)] *)
  Vars : gmap string string;
  (** string values stored in the request context under the keys
      [ctxKeySessionID{}] and [ctxKeyRequestID{}] *)
  ctx_session_id : option string;
  ctx_request_id : option string;
  (** [r.Cookie("currency")] *)
  cookie_currency : option string;
  (** [r.FormValue(key)]: the empty string for an absent field *)
  FormValue : string -> string
}.

Definition StatusOK : Z := 200.

(** What a handler does to the writer it is given. After a [Write]
    it sees the byte count and error the writer reported. *)
Inductive Handling :=
  | Finish
  | SetHeader (k v : string) (next : Handling)
  | CallWriteHeader (status : Z) (next : Handling)
  | CallWrite (b : list Byte.byte) (next : Z * option error -> Handling).

(** [http.ResponseWriter]. [Header()] hands out the header map, which
    the handler then mutates: [SetHeader] is that mutation. *)
Class ResponseWriter (W : Type) := {
  Header_Set : string -> string -> W -> W;
  Write : list Byte.byte -> W -> (Z * option error) * W;
  WriteHeader : Z -> W -> W
}.

(** Running a handler's calls against a writer. *)
Fixpoint serve {W} `{ResponseWriter W} (h : Handling) (w : W) : W :=
  match h with
  | Finish => w
  | SetHeader k v next => serve next (Header_Set k v w)
  | CallWriteHeader st next => serve next (WriteHeader st w)
  | CallWrite b next => let '(res, w') := Write b w in serve (next res) w'
  end.

Definition Handler := Request -> Handling.

(** The calls that reached a connection, in order. *)
Inductive Call :=
  | HeaderSet (k v : string)
  | WroteHeader (status : Z)
  | Wrote (b : list Byte.byte).

(** The server's own writer: it notes every call; [link] is what a
    [Write] of given bytes reports back. *)
Record Conn := mkConn {
  sent : list Call;
  link : list Byte.byte -> Z * option error
}.

#[global] Instance Conn_writer : ResponseWriter Conn := {
  Header_Set k v c := {| sent := sent c ++ [HeaderSet k v]; link := link c |};
  Write b c := (link c b, {| sent := sent c ++ [Wrote b]; link := link c |});
  WriteHeader st c := {| sent := sent c ++ [WroteHeader st]; link := link c |}
}.
End http.

(** ** Classifier and middleware (middleware.go) *)

(** [func getActivityType(r *http.Request) string] *)
Definition getActivityType (r : http.Request) : string :=
  match http.CurrentRoute r with
  | None => "unknown"
  | Some route =>
      let path := (mux.GetPathTemplate route).1 in
      let method := http.Method r in
      if String.eqb path "/" && String.eqb method "GET" then ActivityTypePageView
      else if String.eqb path "/cart" && String.eqb method "POST" then ActivityTypeAddToCart
      else if String.eqb path "/cart/empty" && String.eqb method "POST" then ActivityTypeEmptyCart
      else if String.eqb path "/cart/checkout" && String.eqb method "POST" then ActivityTypeCheckout
      else if String.eqb path "/setCurrency" && String.eqb method "POST" then ActivityTypeCurrencyChange
      else if String.prefix "/product/" path && String.eqb method "GET" then ActivityTypeProductView
      else "other"
  end.

(** [type responseRecorder struct] *)
Record responseRecorder (W : Type) := mkRecorder { w : W; status : Z }.
Arguments mkRecorder {W} w status.
Arguments w {W} r.
Arguments status {W} r.

(** The three methods that make [*responseRecorder] a ResponseWriter. *)
#[global] Instance responseRecorder_writer {W} `{http.ResponseWriter W}
  : http.ResponseWriter (responseRecorder W) := {
  http.Header_Set k v r :=
    {| w := http.Header_Set k v (w r); status := status r |};
  http.Write b r :=
    let st := if (status r =? 0)%Z then http.StatusOK else status r in
    let '(res, w') := http.Write b (w r) in
    (res, {| w := w'; status := st |});
  http.WriteHeader st r :=
    {| w := http.WriteHeader st (w r); status := st |}
}.

(** [func currentCurrency(r *http.Request) string] *)
Definition currentCurrency (r : http.Request) : string :=
  match http.cookie_currency r with
  | Some c => c
  | None => "USD"
  end.

(** [x.(string)] on a context value: panics unless a string is there. *)
Definition assert_string (v : option string) : M string :=
  match v with
  | Some x => mret x
  | None => throw TypeAssertion
  end.

(** [type ActivityMiddleware struct]. Its [log] field is the process
    logger, whose output is the [logged] field of the state, so a
    middleware is made from the wrapped handler alone. *)
Record ActivityMiddleware := NewActivityMiddleware { next : http.Handler }.

Definition with_status (st : Z) (a : ActivityLog) : ActivityLog :=
  mkActivityLog (ID a) (SessionID a) (RequestID a) (ActivityType a) (Path a)
    (Method a) st (UserCurrency a) (Details a) (CreatedAt a).

Definition with_details (d : string) (a : ActivityLog) : ActivityLog :=
  mkActivityLog (ID a) (SessionID a) (RequestID a) (ActivityType a) (Path a)
    (Method a) (StatusCode a) (UserCurrency a) d (CreatedAt a).

(** The [details] map built after the handler has returned. *)
Definition details_of (ty : string) (r : http.Request) : gmap string string :=
  if String.eqb ty ActivityTypeAddToCart then
    <["quantity" := http.FormValue r "quantity"]>
      (<["product_id" := http.FormValue r "product_id"]> ∅)
  else if String.eqb ty ActivityTypeProductView then
    match http.CurrentRoute r with
    | Some _ => <["product_id" := default "" (http.Vars r !! "id")]> ∅
    | None => ∅
    end
  else if String.eqb ty ActivityTypeCurrencyChange then
    <["new_currency" := http.FormValue r "currency_code"]> ∅
  else ∅.

Section Middleware.
(** [json.Marshal] on a map of strings, from encoding/json. *)
Variable json_Marshal : gmap string string -> string * option error.

Context {W : Type} `{http.ResponseWriter W}.

(** [func (m *ActivityMiddleware) ServeHTTP(w, r)]. The value is the
    writer the caller passed in, as the call leaves it. *)
Definition ServeHTTP (m : ActivityMiddleware) (e : Env) (w0 : W) (r : http.Request)
  : M W :=
  let rr := {| w := w0; status := 0%Z |} in
  sessionID ← assert_string (http.ctx_session_id r);
  requestID ← assert_string (http.ctx_request_id r);
  let userCurrency := currentCurrency r in
  let activity :=
    {| ID := 0%Z; SessionID := sessionID; RequestID := requestID;
       ActivityType := getActivityType r; Path := http.URL_Path r;
       Method := http.Method r; StatusCode := 0%Z;
       UserCurrency := userCurrency; Details := ""; CreatedAt := zero_time |} in
  let rr := http.serve (next m r) rr in
  let activity := with_status (status rr) activity in
  let details := details_of (ActivityType activity) r in
  let activity :=
    if decide (0 < size details) then
      match json_Marshal details with
      | (detailsJSON, None) => with_details detailsJSON activity
      | (_, Some _) => activity
      end
    else activity in
  err ← LogActivity e activity;
  _ ← (if err is Some x
       then modify (add_logged (Warnf "Failed to log activity: %v" x))
       else mret tt);
  mret (w rr).
End Middleware.

(** ** Reference definitions, written from the specification *)

Module Spec.
(** The classifier as the specification words it: an ordered table of
    exact and prefix rules, first match wins, "other" when none
    matches and "unknown" when no route was resolved. *)
Inductive PathRule :=
  | ExactPath (p : string)
  | PathPrefix (p : string).

Record Rule := mkRule {
  rule_path : PathRule;
  rule_method : string;
  rule_type : string
}.

Definition rules : list Rule := [
  mkRule (ExactPath "/") "GET" "page_view";
  mkRule (ExactPath "/cart") "POST" "add_to_cart";
  mkRule (ExactPath "/cart/empty") "POST" "empty_cart";
  mkRule (ExactPath "/cart/checkout") "POST" "checkout";
  mkRule (ExactPath "/setCurrency") "POST" "currency_change";
  mkRule (PathPrefix "/product/") "GET" "product_view"
].

Definition path_matches (pr : PathRule) (tpl : string) : bool :=
  match pr with
  | ExactPath p => String.eqb tpl p
  | PathPrefix p => String.prefix p tpl
  end.

Definition applies (method tpl : string) (rl : Rule) : bool :=
  path_matches (rule_path rl) tpl && String.eqb method (rule_method rl).

Fixpoint first_match (method tpl : string) (rls : list Rule) : option Rule :=
  match rls with
  | [] => None
  | rl :: rls' => if applies method tpl rl then Some rl else first_match method tpl rls'
  end.

(** [resolved] is the (method, route template) pair of a routed
    request, or nothing for a request no route matched. *)
Definition classify (resolved : option (string * string)) : string :=
  match resolved with
  | None => "unknown"
  | Some (method, tpl) =>
      match first_match method tpl rules with
      | Some rl => rule_type rl
      | None => "other"
      end
  end.

(** The fixed enumeration of activity types. *)
Definition activity_types : list string :=
  ["page_view"; "add_to_cart"; "empty_cart"; "checkout";
   "currency_change"; "product_view"; "other"; "unknown"].

(** Number of persisted records of type [ty] created within
    [[t0, t1]], both ends included. *)
Definition count_in_window (t0 t1 : Time) (ty : string) (l : list ActivityLog) : Z :=
  Z.of_nat (length (filter
     (fun a => ActivityType a = ty
               ∧ (instant t0 ≤ instant (CreatedAt a) ≤ instant t1)%Z) l)).

(** The first status code in a sequence of calls, if there is one. *)
Fixpoint first_status (cs : list http.Call) : option Z :=
  match cs with
  | [] => None
  | http.WroteHeader st :: _ => Some st
  | _ :: cs' => first_status cs'
  end.
End Spec.

(** What the classifier is given: the pair the router resolved. *)
Definition resolved (r : http.Request) : option (string * string) :=
  match http.CurrentRoute r with
  | None => None
  | Some route => Some (http.Method r, (mux.GetPathTemplate route).1)
  end.

(** The row [LogActivity] asks the engine to store. *)
Definition stored_row (id : Z) (a : ActivityLog) (now : Time) : ActivityLog :=
  mkActivityLog id (SessionID a) (RequestID a) (ActivityType a) (Path a)
    (Method a) (StatusCode a) (UserCurrency a) (Details a) now.

Definition with_created_at (t : Time) (a : ActivityLog) : ActivityLog :=
  mkActivityLog (ID a) (SessionID a) (RequestID a) (ActivityType a) (Path a)
    (Method a) (StatusCode a) (UserCurrency a) (Details a) t.

(** The last status code among calls, and whether bytes were written. *)
Fixpoint last_status (cs : list http.Call) : option Z :=
  match cs with
  | [] => None
  | http.WroteHeader st :: cs' =>
      match last_status cs' with Some st' => Some st' | None => Some st end
  | _ :: cs' => last_status cs'
  end.

(** ** The subsystem as a state machine *)

(** Every exported operation of the package, with its arguments. *)
Inductive Op :=
  | CallInitDB
  | CallGetDB
  | CallCloseDB
  | CallLogActivity (activity : ActivityLog)
  | CallGetActivitiesBySession (sessionID : string) (limit : Z)
  | CallGetRecentActivities (limit : Z)
  | CallGetActivityStats (startTime endTime : Time)
  | CallServeHTTP (m : ActivityMiddleware) (c : http.Conn) (r : http.Request).

Definition read_only (op : Op) : bool :=
  match op with
  | CallGetActivitiesBySession _ _ | CallGetRecentActivities _
  | CallGetActivityStats _ _ | CallGetDB => true
  | _ => false
  end.

Definition ignore {A} (m : M A) : M unit := _ ← m; mret tt.

Section Machine.
Variable json_Marshal : gmap string string -> string * option error.

Definition perform (e : Env) (op : Op) : M unit :=
  match op with
  | CallInitDB => ignore (InitDB e)
  | CallGetDB => ignore GetDB
  | CallCloseDB => ignore (CloseDB e)
  | CallLogActivity a => ignore (LogActivity e a)
  | CallGetActivitiesBySession sid n => ignore (GetActivitiesBySession e sid n)
  | CallGetRecentActivities n => ignore (GetRecentActivities e n)
  | CallGetActivityStats t0 t1 => ignore (GetActivityStats e t0 t1)
  | CallServeHTTP m c r => ignore (ServeHTTP json_Marshal m e c r)
  end.

(** A history: operations with the environment each one met. A
    panicking request does not stop the process (the server recovers
    it), so the history goes on from the state it left. *)
Fixpoint history (ops : list (Env * Op)) (s : State) : State :=
  match ops with
  | [] => s
  | (e, op) :: ops' => history ops' (after (perform e op) s)
  end.
End Machine.


(** The first of the setup steps that the environment fails, in the
    order [InitDB] takes them: the directory, the pragma, then the
    statements of the schema. *)
Definition init_steps : list Step :=
  StepMkdir :: StepPragma :: map StepSchema schema.

Fixpoint first_of (e : Env) (steps : list Step) : option (Step * error) :=
  match steps with
  | [] => None
  | stp :: steps' =>
      match fault e stp with
      | Some x => Some (stp, x)
      | None => first_of e steps'
      end
  end.

Definition first_fault (e : Env) : option (Step * error) := first_of e init_steps.

(** The accessor reporting that the store is not initialized. *)
Definition reports_uninitialized (s : State) : Prop :=
  result GetDB s = Panic Uninitialized.

Definition only (bad : Step) (st : Step) : bool := bool_decide (bad = st).

(** The calls a handler makes, given what each [Write] reports back. *)
Fixpoint calls_of (h : http.Handling) (lk : list Byte.byte -> Z * option error)
  : list http.Call :=
  match h with
  | http.Finish => []
  | http.SetHeader k v nx => http.HeaderSet k v :: calls_of nx lk
  | http.CallWriteHeader st nx => http.WroteHeader st :: calls_of nx lk
  | http.CallWrite b nx => http.Wrote b :: calls_of (nx (lk b)) lk
  end.

Definition is_WroteHeader (c : http.Call) : bool :=
  match c with http.WroteHeader _ => true | _ => false end.

Definition is_Wrote (c : http.Call) : bool :=
  match c with http.Wrote _ => true | _ => false end.

(** A handler that sets the status twice: 404, then 500. *)
Definition twice_WriteHeader : http.Handler :=
  fun _ => http.CallWriteHeader 404 (http.CallWriteHeader 500 http.Finish).

Definition silent_link : list Byte.byte -> Z * option error :=
  fun b => (Z.of_nat (length b), None).

Definition fresh_conn : http.Conn := {| http.sent := []; http.link := silent_link |}.

(** A routed request carrying both context values. *)
Definition sample_request (method path tpl : string) : http.Request :=
  http.mkRequest method path (Some (mux.mkRoute (Some tpl))) ∅
    (Some "session-1") (Some "request-1") None (fun _ => "").

(** A store after a successful [InitDB] on an empty disk. *)
Definition ready : State := after (InitDB (healthy 0)) (boot blank_disk).

(** What one call on the recorder does to its [status] field. *)
Definition note (st : Z) (c : http.Call) : Z :=
  match c with
  | http.WroteHeader x => x
  | http.Wrote _ => if (st =? 0)%Z then http.StatusOK else st
  | http.HeaderSet _ _ => st
  end.

(** A [json.Marshal] that always answers the empty object. *)
Definition marshal_empty : gmap string string -> string * option error :=
  fun _ => ("{}", None).

(** Reading a GROUP BY result as an association list. *)
Fixpoint assoc (g : list (string * Z)) (k : string) : option Z :=
  match g with
  | [] => None
  | (k', n) :: g' => if String.eqb k' k then Some n else assoc g' k
  end.

(** Number of records of a type in a list. *)
Definition tally (ty : string) (l : list ActivityLog) : nat :=
  length (filter (fun a => ActivityType a = ty) l).

(** The INSERT that [LogActivity] sends for an activity at a time. *)
Definition insert_of (a : ActivityLog) (now : Time) : Stmt :=
  InsertActivity (SessionID a) (RequestID a) (ActivityType a) (Path a) (Method a)
    (StatusCode a) (UserCurrency a) (Details a) now.

(** ** Query API (activities.go) *)

(** [time.Hour]: a [time.Duration] counts nanoseconds. *)
Definition Hour : Z := 3600000000000.

Module api.
(** A request as the three handlers read it: the request itself, the
    URL query ([r.URL.Query().Get(key)], empty for an absent key), and
    whether a logger is stored in the context under [ctxKeyLog{}]. *)
Record Request := mkRequest {
  base : http.Request;
  Query_Get : string -> string;
  ctx_log : bool
}.
End api.

(** [x.(logrus.FieldLogger)] on the context value: panics when absent. *)
Definition assert_logger (r : api.Request) : M unit :=
  if api.ctx_log r then mret tt else throw TypeAssertion.

Section QueryAPI.
(** Library and host functions the handlers call: [strconv.Atoi],
    [Time.Add] (the time a duration away, in the same location),
    [time.Parse(time.RFC3339, _)], the host's [sessionID] and
    [renderHTTPError] (given the message of [errors.Wrap] and the error
    it wraps), and what [json.NewEncoder(w).Encode] hands to [w.Write],
    or nothing when marshalling fails. A list stands for the slice
    [queryActivities] returns, which is nil exactly when it is empty. *)
Variable strconv_Atoi : string -> Z * option error.
Variable time_Add : Time -> Z -> Time.
Variable time_Parse : string -> Time * option error.
Variable sessionID : http.Request -> string.
Variable encode_activities : list ActivityLog -> option (list Byte.byte).
Variable encode_stats : option (gmap string Z) -> option (list Byte.byte).
Context {W : Type} `{http.ResponseWriter W}.
Variable renderHTTPError : http.Request -> W -> string -> error -> Z -> M W.

(** The block both list handlers open with:
    [limit := dflt; if limitStr != "" { if l, err := Atoi(limitStr);
    err == nil && l > 0 { limit = l } }]. *)
Definition limit_param (dflt : Z) (limitStr : string) : Z :=
  if decide (limitStr = "") then dflt
  else
    match strconv_Atoi limitStr with
    | (l, None) => if (0 <? l)%Z then l else dflt
    | (_, Some _) => dflt
    end.

(** [w.Header().Set("Content-Type", "application/json")] followed by
    [json.NewEncoder(w).Encode(v)], whose error is dropped. *)
Definition respond_json (body : option (list Byte.byte)) (w0 : W) : W :=
  let w1 := http.Header_Set "Content-Type" "application/json" w0 in
  match body with
  | Some b => (http.Write b w1).2
  | None => w1
  end.

(** [func (fe *frontendServer) listActivitiesHandler(w, r)] *)
Definition listActivitiesHandler (e : Env) (w0 : W) (r : api.Request) : M W :=
  _ ← assert_logger r;
  let limit := limit_param 100 (api.Query_Get r "limit") in
  '(activities, err) ← GetRecentActivities e limit;
  match err with
  | Some x => renderHTTPError (api.base r) w0 "failed to get activities" x 500
  | None => mret (respond_json (encode_activities activities) w0)
  end.

(** [func (fe *frontendServer) sessionActivitiesHandler(w, r)] *)
Definition sessionActivitiesHandler (e : Env) (w0 : W) (r : api.Request) : M W :=
  _ ← assert_logger r;
  let sid := sessionID (api.base r) in
  let limit := limit_param 50 (api.Query_Get r "limit") in
  '(activities, err) ← GetActivitiesBySession e sid limit;
  match err with
  | Some x => renderHTTPError (api.base r) w0 "failed to get session activities" x 500
  | None => mret (respond_json (encode_activities activities) w0)
  end.

(** One bound of the window: the parsed parameter when there is one
    and it parses, the default otherwise. *)
Definition time_param (dflt : Time) (v : string) : Time :=
  if decide (v = "") then dflt
  else
    match time_Parse v with
    | (t, None) => t
    | (_, Some _) => dflt
    end.

(** [func (fe *frontendServer) activityStatsHandler(w, r)] *)
Definition activityStatsHandler (e : Env) (w0 : W) (r : api.Request) : M W :=
  _ ← assert_logger r;
  let endTime := clock e in
  let startTime := time_Add endTime (-24 * Hour) in
  let startTime := time_param startTime (api.Query_Get r "start") in
  let endTime := time_param endTime (api.Query_Get r "end") in
  '(stats, err) ← GetActivityStats e startTime endTime;
  match err with
  | Some x => renderHTTPError (api.base r) w0 "failed to get activity stats" x 500
  | None => mret (respond_json (encode_stats stats) w0)
  end.
End QueryAPI.

(** Row ids as AUTOINCREMENT hands them out: positive, ascending in
    insertion order, none above [seq]. *)
Definition ids_ascending (d : Disk) : Prop :=
  StronglySorted (fun a b => (ID a < ID b)%Z) (rows d)
  /\ Forall (fun a => (0 < ID a <= seq d)%Z) (rows d)
  /\ (0 <= seq d)%Z.

(** Every record of a list has a stored timestamp that is, as text,
    smaller than that of a given time. *)
Definition all_before (t : Time) (l : list ActivityLog) : Prop :=
  Forall (fun a => String.ltb (stamp (CreatedAt a)) (stamp t) = true) l.

(** On a list of records, the stored texts order the records as their
    instants do (so it is when all were written with one zone offset). *)
Definition stamps_follow_instants (l : list ActivityLog) : Prop :=
  forall a b, a ∈ l -> b ∈ l ->
    String.leb (stamp (CreatedAt a)) (stamp (CreatedAt b)) = true ->
    (instant (CreatedAt a) <= instant (CreatedAt b))%Z.

(** Number of records of type [ty] whose stored timestamp lies, as
    text, between those of [t0] and [t1]: what the database counts. *)
Definition count_stored (t0 t1 : Time) (ty : string) (l : list ActivityLog) : Z :=
  Z.of_nat (length (filter (fun a => ActivityType a = ty /\ between t0 t1 a = true) l)).


(** Stand-ins for the library functions, used to run examples: a
    reader of one-digit numbers, a reader of times that takes such a
    number as seconds after the epoch, the day before a time of
    January 1, 1970 in UTC, the session id taken from the context,
    encoders that write one byte per record or per entry, and an error
    page that sets the status. *)
Definition digit_of (c : Ascii.ascii) : option Z :=
  let n := Z.of_N (Ascii.N_of_ascii c) in
  if ((48 <=? n) && (n <=? 57))%Z then Some (n - 48)%Z else None.

Definition digit_Atoi (s : string) : Z * option error :=
  let bad := (0%Z, Some (EnvError "strconv.Atoi: invalid syntax")) in
  match s with
  | String c "" =>
      match digit_of c with Some n => (n, None) | None => bad end
  | String c (String c' "") =>
      if N.eqb (Ascii.N_of_ascii c) 45 then
        match digit_of c' with Some n => ((- n)%Z, None) | None => bad end
      else bad
  | _ => bad
  end.

(** A number of seconds, read as that time after the epoch in UTC. *)
Definition digit_Parse (s : string) : Time * option error :=
  let '(n, err) := digit_Atoi s in (epoch_second n, err).

(** [t.Add(d)] for [t] on January 1, 1970 in UTC and [d] of minus 24
    hours: the same time of day on December 31, 1969. *)
Definition day_before (t : Time) (d : Z) : Time :=
  {| instant := instant t + d;
     stamp := "1969-12-31" +:+ String.substring 10 15 (stamp t) |}.

Definition context_sessionID (r : http.Request) : string :=
  default "" (http.ctx_session_id r).

Definition count_encoder (l : list ActivityLog) : option (list Byte.byte) :=
  Some (replicate (length l) Byte.x2a).

Definition size_encoder (m : option (gmap string Z)) : option (list Byte.byte) :=
  Some (replicate (size (default ∅ m)) Byte.x2a).

Definition status_page (r : http.Request) (c : http.Conn) (msg : string)
    (x : error) (code : Z) : M http.Conn :=
  mret (http.WriteHeader code c).

Definition api_request (limit : string) : api.Request :=
  api.mkRequest (sample_request "GET" "/api/activities" "/api/activities")
    (fun k => if String.eqb k "limit" then limit else "") true.

(** An environment in which reading a result set breaks off after
    [k] rows. *)
Definition interrupted (now : Time) (k : nat) (x : error) : Env :=
  {| clock := now; fault := fun _ => None; cut := Some (k, x) |}.

Definition three_rows : list ActivityLog :=
  [mkActivityLog 1 "s1" "r1" "page_view" "/" "GET" 200 "USD" "" 10;
   mkActivityLog 2 "s2" "r2" "page_view" "/" "GET" 200 "USD" "" 20;
   mkActivityLog 3 "s1" "r3" "checkout" "/cart/checkout" "POST" 302 "USD" "" 30].

(** An initialized store holding [three_rows]. *)
Definition stocked : State := set_disk (set_rows three_rows 3 (disk ready)) ready.

(** Times of the night of October 27, 2024 in a location that goes
    from +02:00 back to +01:00 at 03:00 (Europe/Berlin): 02:30 before
    the change and 02:10 after it, forty minutes later. *)
Definition before_change : Time :=
  {| instant := 1729989000000000000; stamp := "2024-10-27 02:30:00+02:00" |}.
Definition after_change : Time :=
  {| instant := 1729991400000000000; stamp := "2024-10-27 02:10:00+01:00" |}.
Definition later_that_night : Time :=
  {| instant := 1729992000000000000; stamp := "2024-10-27 02:20:00+01:00" |}.

(** An activity as a caller hands it to [LogActivity]. *)
Definition visit : ActivityLog :=
  mkActivityLog 0 "s1" "r1" "page_view" "/" "GET" 200 "USD" "" zero_time.

(** A store in which one session logged an activity on either side of
    the change. *)
Definition two_zone_store : State :=
  after (LogActivity (healthy after_change) visit)
    (after (LogActivity (healthy before_change) visit) ready).

(** Noon of January 1, 2024 in UTC, and the hours around it written
    with the offset +05:00, as [time.Parse] returns them for
    [2024-01-01T16:00:00+05:00] and [2024-01-01T18:00:00+05:00]. *)
Definition noon_utc : Time :=
  {| instant := 1704110400000000000; stamp := "2024-01-01 12:00:00+00:00" |}.
Definition eleven_utc_in_plus5 : Time :=
  {| instant := 1704106800000000000; stamp := "2024-01-01 16:00:00+05:00" |}.
Definition thirteen_utc_in_plus5 : Time :=
  {| instant := 1704114000000000000; stamp := "2024-01-01 18:00:00+05:00" |}.

(** A store in which one activity was logged at that noon. *)
Definition noon_store : State := after (LogActivity (healthy noon_utc) visit) ready.

(** The text the middleware stores in the details column, given the
    marshaller: empty without details or when marshalling fails. *)
Definition details_text (json_Marshal : gmap string string -> string * option error)
    (r : http.Request) : string :=
  let details := details_of (getActivityType r) r in
  if decide (details = ∅) then ""
  else match json_Marshal details with
       | (js, None) => js
       | (_, Some _) => ""
       end.

(** * Properties *)

Ltac run_go :=
  unfold after, result, InitDB, once_Do, init_closure, CloseDB, LogActivity,
    GetActivitiesBySession, GetRecentActivities, GetActivityStats, queryActivities,
    GetDB, db_Exec, db_Query, send, os_MkdirAll, sql_Open, assert_string,
    get, modify, throw, ignore, mbind, M_bind, mret, M_ret; simpl.

(** ** Store *)

Lemma GetDB_reads s : GetDB s = (Ret (db s), s).
Proof. reflexivity. Qed.

Lemma InitDB_skipped e s : once s = true -> InitDB e s = (Ret None, s).
Proof. intros Hd. unfold InitDB, once_Do. by rewrite Hd. Qed.

Lemma InitDB_marks_once e s : once (after (InitDB e) s) = true.
Proof.
  unfold after, InitDB, once_Do. destruct (once s) eqn:Hd; [done|].
  by destruct (init_closure e s).
Qed.

(** The cases of a first [InitDB]: which of its steps the environment
    fails first, if any. *)
Ltac init_cases e :=
  destruct (fault e StepMkdir); simpl; [try done|
  destruct (fault e StepPragma); simpl; [try done|
  destruct (fault e (StepSchema CreateTableActivities)); simpl; [try done|
  destruct (fault e (StepSchema CreateIndexSession)); simpl; [try done|
  destruct (fault e (StepSchema CreateIndexCreatedAt)); simpl; [try done|
  destruct (fault e (StepSchema CreateIndexActivityType)); simpl; try done]]]]].

Ltac run_init e Hd :=
  unfold first_fault, init_steps; run_go; rewrite Hd; unfold schema; simpl;
  init_cases e.

(** The first call returns the error of the first failing step, or nil. *)
Lemma InitDB_first_result e s :
  once s = false -> result (InitDB e) s = Ret (snd <$> first_fault e).
Proof. intros Hd. run_init e Hd. Qed.

(** What the first call leaves in the package variable [db]: the
    handle of [sql.Open], unless the directory could not be made. *)
Lemma InitDB_first_handle e s :
  once s = false ->
  db (after (InitDB e) s) =
    match first_fault e with
    | Some (StepMkdir, _) => db s
    | _ => Some {| dsn := dbPath; closed := false |}
    end.
Proof. intros Hd. run_init e Hd. Qed.

(** A failed first call logs nothing and keeps the rows. *)
Lemma InitDB_first_failure e s stp x :
  once s = false -> first_fault e = Some (stp, x) ->
  logged (after (InitDB e) s) = logged s
  /\ rows (disk (after (InitDB e) s)) = rows (disk s)
  /\ seq (disk (after (InitDB e) s)) = seq (disk s).
Proof. intros Hd. run_init e Hd. Qed.

(** A first call that fails before the schema leaves the table as it
    was; one that fails inside the schema after its first statement
    has created the table. *)
Lemma InitDB_first_table e s stp x :
  once s = false -> first_fault e = Some (stp, x) ->
  has_schema (disk (after (InitDB e) s)) =
    match stp with
    | StepSchema CreateIndexSession | StepSchema CreateIndexCreatedAt
    | StepSchema CreateIndexActivityType => true
    | _ => has_schema (disk s)
    end.
Proof.
  intros Hd. run_init e Hd; intros Hf; injection Hf as <- _; done.
Qed.

(** A successful first call: handle open, schema present, two
    statements issued, one line logged. *)
Lemma InitDB_first_success e s :
  once s = false -> first_fault e = None ->
  let s1 := after (InitDB e) s in
  db s1 = Some {| dsn := dbPath; closed := false |}
  /\ has_schema (disk s1) = true
  /\ journal_wal (disk s1) = true
  /\ data_dir (disk s1) = true
  /\ rows (disk s1) = rows (disk s)
  /\ issued s1 = issued s ++ [PragmaWAL; CreateSchema].
Proof.
  intros Hd. run_init e Hd.
  intros _. repeat split. by rewrite <- app_assoc.
Qed.


(** C1, as the specification states it, fails: before any [InitDB] the
    accessor returns nil, and after an [InitDB] that failed at the
    journal-mode pragma it returns the handle that was opened; in
    neither case does it panic or report Uninitialized. *)
Lemma GetDB_uninitialized_counterexample :
  let e := failing_at 0 (only StepPragma) (EnvError "disk I/O error") in
  let s1 := after (InitDB e) (boot blank_disk) in
  ~ reports_uninitialized (boot blank_disk)
  /\ result GetDB (boot blank_disk) = Ret None
  /\ result (InitDB e) (boot blank_disk) = Ret (Some (EnvError "disk I/O error"))
  /\ ~ reports_uninitialized s1
  /\ result GetDB s1 = Ret (Some {| dsn := dbPath; closed := false |})
  /\ has_schema (disk s1) = false.
Proof.
  unfold reports_uninitialized. vm_compute. repeat split; congruence.
Qed.

(** C1 (amended): [GetDB] never panics and never reports an error; it
    returns the package variable [db] as it is and changes nothing. In a
    process where [InitDB] has not been called, and after a first
    [InitDB] that failed at directory creation, that value is nil. *)
Theorem GetDB_returns_package_variable (d : Disk) (e : Env) (x : error) :
  first_fault e = Some (StepMkdir, x) ->
  (forall s, GetDB s = (Ret (db s), s))
  /\ result GetDB (boot d) = Ret None
  /\ result (InitDB e) (boot d) = Ret (Some x)
  /\ result GetDB (after (InitDB e) (boot d)) = Ret None.
Proof.
  intros Hf. split; [exact GetDB_reads|]. split; [done|].
  split.
  - rewrite InitDB_first_result by done. by rewrite Hf.
  - unfold result. rewrite GetDB_reads. simpl.
    rewrite InitDB_first_handle by done. by rewrite Hf.
Qed.

Lemma GetDB_returns_package_variable_witness :
  result GetDB
    (after (InitDB (failing_at 0 (only StepMkdir) (EnvError "permission denied")))
       (boot blank_disk)) = Ret None.
Proof.
  apply (GetDB_returns_package_variable blank_disk
           (failing_at 0 (only StepMkdir) (EnvError "permission denied"))
           (EnvError "permission denied")).
  reflexivity.
Defined.

(** C4: [InitDB] is idempotent. Whatever the state and whatever the
    environments of the two calls, the second call returns nil and
    leaves the state of the first untouched: no statement is issued,
    nothing is logged, the handle is the same. When the first call was
    the process's first and returned nil, that state has the schema
    present and an open handle. Running the two calls in a row is the
    same computation as running the first alone. *)
Theorem InitDB_idempotent (s : State) (e1 e2 : Env) :
  let s1 := after (InitDB e1) s in
  InitDB e2 s1 = (Ret None, s1)
  /\ (r ← InitDB e1; _ ← InitDB e2; mret r) s = InitDB e1 s
  /\ (once s = false -> result (InitDB e1) s = Ret None ->
      has_schema (disk s1) = true
      /\ db s1 = Some {| dsn := dbPath; closed := false |}
      /\ db (after (InitDB e2) s1) = db s1
      /\ issued (after (InitDB e2) s1) = issued s ++ [PragmaWAL; CreateSchema]).
Proof.
  intros s1.
  assert (Hskip : InitDB e2 s1 = (Ret None, s1)).
  { apply InitDB_skipped, InitDB_marks_once. }
  split; [exact Hskip|]. split.
  - unfold mbind, M_bind at 1. fold s1.
    destruct (InitDB e1 s) as [[r|p] s'] eqn:E1; [|done].
    unfold mbind, M_bind.
    assert (Hs' : s' = s1) by (unfold s1, after; by rewrite E1).
    rewrite Hs', Hskip. reflexivity.
  - intros Hd Hr. rewrite InitDB_first_result in Hr by done.
    destruct (first_fault e1) as [[stp x]|] eqn:Hf; [done|].
    destruct (InitDB_first_success e1 s Hd Hf) as (Hdb & Hsch & _ & _ & _ & Hiss).
    fold s1 in Hdb, Hsch, Hiss.
    unfold after at 1 2. rewrite Hskip. simpl. done.
Qed.

Lemma InitDB_idempotent_witness :
  let s1 := after (InitDB (healthy 0)) (boot blank_disk) in
  has_schema (disk s1) = true
  /\ db s1 = Some {| dsn := dbPath; closed := false |}
  /\ db (after (InitDB (healthy 1)) s1) = db s1
  /\ issued (after (InitDB (healthy 1)) s1) = [PragmaWAL; CreateSchema].
Proof.
  apply (InitDB_idempotent (boot blank_disk) (healthy 0) (healthy 1)).
  - reflexivity.
  - reflexivity.
Defined.




(** ** Classifier *)

Lemma getActivityType_classify r : getActivityType r = Spec.classify (resolved r).
Proof.
  unfold getActivityType, resolved.
  destruct (http.CurrentRoute r) as [route|]; [|done].
  simpl. unfold Spec.applies. simpl.
  generalize (mux.GetPathTemplate route).1 as path, (http.Method r) as method.
  intros path method.
  repeat (match goal with
          | |- context [if ?c then _ else _] => destruct c eqn:?
          end; try done).
Qed.

Lemma getActivityType_enumerated r : getActivityType r ∈ Spec.activity_types.
Proof.
  unfold getActivityType, Spec.activity_types.
  destruct (http.CurrentRoute r) as [route|]; [|set_solver].
  simpl.
  repeat (match goal with
          | |- context [if ?c then _ else _] => destruct c
          end); set_solver.
Qed.

(** In a rule table, a rule that applies while none before it does is
    the one [first_match] picks. *)
Lemma first_match_first method tpl rls i rl :
  rls !! i = Some rl -> Spec.applies method tpl rl = true ->
  (forall j rl', j < i -> rls !! j = Some rl' -> Spec.applies method tpl rl' = false) ->
  Spec.first_match method tpl rls = Some rl.
Proof.
  revert i. induction rls as [|r0 rls IH]; intros i Hi Ha Hb; [done|].
  destruct i as [|i]; simpl in *.
  - injection Hi as ->. by rewrite Ha.
  - rewrite (Hb 0 r0) by (done || lia). apply (IH i); [done|done|].
    intros j rl' Hj Hl. apply (Hb (S j)); [lia|done].
Qed.

Lemma first_match_none method tpl rls :
  (forall rl, rl ∈ rls -> Spec.applies method tpl rl = false) ->
  Spec.first_match method tpl rls = None.
Proof.
  induction rls as [|r0 rls IH]; intros Hb; [done|]. simpl.
  rewrite (Hb r0) by set_solver. apply IH. intros rl Hrl. apply Hb. set_solver.
Qed.

(** A matched route that has no path template is classified on the
    empty path, which no rule accepts. *)
Lemma getActivityType_no_template r :
  http.CurrentRoute r = Some (mux.mkRoute None) -> getActivityType r = "other".
Proof.
  intros Hr. unfold getActivityType. rewrite Hr. simpl.
  by destruct (String.eqb (http.Method r) "GET").
Qed.

(** C2: the classifier equals the reference definition. For every
    request, [getActivityType] is "unknown" when no route is resolved
    and otherwise the type of the first rule of the table that applies
    to (method, route template), "other" when none applies; its value is
    always in the fixed enumeration; a rule that applies while no
    earlier one does decides the type, so POST "/cart/checkout" is
    "checkout" and never "other". *)
Theorem getActivityType_refines_classify (r : http.Request) :
  getActivityType r = Spec.classify (resolved r)
  /\ getActivityType r ∈ Spec.activity_types
  /\ (http.CurrentRoute r = None -> getActivityType r = "unknown")
  /\ (forall method tpl i rl,
        resolved r = Some (method, tpl) ->
        Spec.rules !! i = Some rl ->
        Spec.applies method tpl rl = true ->
        (forall j rl', j < i -> Spec.rules !! j = Some rl' ->
                       Spec.applies method tpl rl' = false) ->
        getActivityType r = Spec.rule_type rl)
  /\ (forall method tpl,
        resolved r = Some (method, tpl) ->
        (forall rl, rl ∈ Spec.rules -> Spec.applies method tpl rl = false) ->
        getActivityType r = "other")
  /\ (resolved r = Some ("POST", "/cart/checkout") ->
      getActivityType r = "checkout" /\ getActivityType r <> "other").
Proof.
  split; [apply getActivityType_classify|].
  split; [apply getActivityType_enumerated|].
  split; [intros Hn; unfold getActivityType; by rewrite Hn|].
  rewrite getActivityType_classify.
  split; [|split].
  - intros method tpl i rl -> Hi Ha Hb. unfold Spec.classify.
    by rewrite (first_match_first method tpl Spec.rules i rl Hi Ha Hb).
  - intros method tpl -> Hb. unfold Spec.classify.
    by rewrite (first_match_none method tpl Spec.rules Hb).
  - intros ->. by vm_compute.
Qed.

Lemma getActivityType_refines_classify_witness :
  let r := http.mkRequest "POST" "/cart/checkout"
             (Some (mux.mkRoute (Some "/cart/checkout"))) ∅
             (Some "session-1") (Some "request-1") None (fun _ => "") in
  getActivityType r = "checkout" /\ getActivityType r <> "other".
Proof.
  intros r.
  apply (getActivityType_refines_classify r).
  reflexivity.
Defined.

(** ** Response recorder *)

Section Recorder.
Context {W : Type} `{http.ResponseWriter W}.

(** The recorder hands every call on to the writer it wraps: that
    writer ends as if the handler had been given it directly. *)
Lemma recorder_passes_through (h : http.Handling) (w0 : W) (st : Z) :
  w (http.serve h (mkRecorder w0 st)) = http.serve h w0.
Proof.
  revert w0 st.
  induction h as [|k v nx IH|st' nx IH|b nx IH]; intros w0 st; simpl.
  - done.
  - apply IH.
  - apply IH.
  - destruct (http.Write b w0) as [res w'] eqn:E. simpl. apply IH.
Qed.
End Recorder.

(** On a connection, the handler's calls are appended to [sent]. *)
Lemma serve_conn_sent h c :
  http.sent (http.serve h c) = http.sent c ++ calls_of h (http.link c)
  /\ http.link (http.serve h c) = http.link c.
Proof.
  revert c. induction h as [|k v nx IH|st' nx IH|b nx IH]; intros c; simpl.
  - by rewrite app_nil_r.
  - destruct (IH (http.Header_Set k v c)) as [E1 E2]. simpl in E1, E2.
    rewrite E1, E2. by rewrite <- app_assoc.
  - destruct (IH (http.WriteHeader st' c)) as [E1 E2]. simpl in E1, E2.
    rewrite E1, E2. by rewrite <- app_assoc.
  - destruct (IH (http.link c b) (snd (http.Write b c))) as [E1 E2]. simpl in E1, E2.
    rewrite E1, E2. by rewrite <- app_assoc.
Qed.

(** The recorded status is the handler's calls folded with [note]. *)
Lemma recorder_status h (c : http.Conn) st :
  status (http.serve h (mkRecorder c st)) = foldl note st (calls_of h (http.link c)).
Proof.
  revert c st. induction h as [|k v nx IH|st' nx IH|b nx IH]; intros c st; simpl.
  - done.
  - by rewrite IH.
  - by rewrite IH.
  - by rewrite IH.
Qed.

(** Without any WriteHeader: 200 once bytes were written, else the
    status the recorder started with. *)
Lemma note_write_only cs st :
  Forall (fun x => is_WroteHeader x = false) cs ->
  foldl note st cs =
    if existsb is_Wrote cs then (if (st =? 0)%Z then 200%Z else st) else st.
Proof.
  revert st. induction cs as [|c cs IH]; intros st Hn; [done|].
  inversion Hn as [|? ? Hc Hcs]; subst. simpl. rewrite (IH _ Hcs).
  destruct c as [k v|x|b]; simpl in *; try done.
  destruct (st =? 0)%Z eqn:E; simpl; destruct (existsb is_Wrote cs); try done.
  by rewrite E.
Qed.

Lemma last_status_None cs :
  last_status cs = None -> Forall (fun c => is_WroteHeader c = false) cs.
Proof.
  induction cs as [|c cs IH]; [done|]. simpl.
  destruct c; simpl; try (intros E; constructor; [done|by apply IH]).
  by destruct (last_status cs).
Qed.

(** With a WriteHeader among the calls, the last one is what stays. *)
Lemma note_last cs st x :
  last_status cs = Some x -> x <> 0%Z -> foldl note st cs = x.
Proof.
  revert st. induction cs as [|c cs IH]; intros st Hl Hx; [done|].
  simpl in *. destruct c as [k v|y|b]; try (by apply IH).
  destruct (last_status cs) as [z|] eqn:E.
  - apply IH; done.
  - injection Hl as ->.
    rewrite note_write_only by (by apply last_status_None). simpl.
    apply Z.eqb_neq in Hx. rewrite Hx. by destruct (existsb is_Wrote cs).
Qed.

(** The second half of C3 holds: a handler that writes bytes and never
    calls WriteHeader is recorded as 200. *)
Lemma recorder_defaults_to_200 h (c : http.Conn) :
  Forall (fun x => is_WroteHeader x = false) (calls_of h (http.link c)) ->
  existsb is_Wrote (calls_of h (http.link c)) = true ->
  status (http.serve h (mkRecorder c 0)) = 200%Z.
Proof.
  intros Hn Hw. rewrite recorder_status, note_write_only by done. by rewrite Hw.
Qed.

(** What is recorded is the last status written, not the first. *)
Lemma recorder_keeps_last h (c : http.Conn) x :
  last_status (calls_of h (http.link c)) = Some x -> x <> 0%Z ->
  status (http.serve h (mkRecorder c 0)) = x.
Proof. intros Hl Hx. rewrite recorder_status. by apply note_last. Qed.

(** ** Middleware *)

Section MiddlewareProperties.
Variable json_Marshal : gmap string string -> string * option error.
Context {W : Type} `{http.ResponseWriter W}.

(** How a request ends: a missing context value or a nil handle
    panics; otherwise the caller's writer comes back as the recorder
    left it. The environment plays no part. *)
Lemma ServeHTTP_result m e (w0 : W) r s :
  result (ServeHTTP json_Marshal m e w0 r) s =
    match http.ctx_session_id r, http.ctx_request_id r, db s with
    | None, _, _ => Panic TypeAssertion
    | Some _, None, _ => Panic TypeAssertion
    | Some _, Some _, None => Panic NilDereference
    | Some _, Some _, Some _ => Ret (w (http.serve (next m r) (mkRecorder w0 0%Z)))
    end.
Proof.
  unfold ServeHTTP. run_go.
  destruct (http.ctx_session_id r) as [sid|]; simpl; [|done].
  destruct (http.ctx_request_id r) as [rid|]; simpl; [|done].
  destruct (db s) as [h|]; simpl; [|done].
  destruct (closed h); simpl; [done|].
  destruct (fault e StepInsert); simpl; [done|].
  destruct (has_schema (disk s)); simpl; done.
Qed.

(** A failing INSERT leaves one warning in the log and no row. *)
Lemma ServeHTTP_persistence_failure m e (w0 : W) r s sid rid h x :
  http.ctx_session_id r = Some sid -> http.ctx_request_id r = Some rid ->
  db s = Some h -> closed h = false -> fault e StepInsert = Some x ->
  let s' := after (ServeHTTP json_Marshal m e w0 r) s in
  logged s' = logged s ++ [Warnf "Failed to log activity: %v" x]
  /\ rows (disk s') = rows (disk s).
Proof.
  intros Hs Hr Hdb Hc Hf. unfold ServeHTTP. run_go.
  rewrite Hs, Hr. simpl. rewrite Hdb. simpl. rewrite Hc, Hf. simpl. done.
Qed.

(** A successful INSERT stores one row, whose status code is the
    recorder's [status] field, and logs nothing. *)
Lemma ServeHTTP_persistence_success m e (w0 : W) r s sid rid h :
  http.ctx_session_id r = Some sid -> http.ctx_request_id r = Some rid ->
  db s = Some h -> closed h = false -> fault e StepInsert = None ->
  has_schema (disk s) = true ->
  let s' := after (ServeHTTP json_Marshal m e w0 r) s in
  logged s' = logged s
  /\ exists det,
      rows (disk s') = rows (disk s) ++
        [mkActivityLog (seq (disk s) + 1) sid rid (getActivityType r)
           (http.URL_Path r) (http.Method r)
           (status (http.serve (next m r) (mkRecorder w0 0%Z)))
           (currentCurrency r) det (clock e)].
Proof.
  intros Hs Hr Hdb Hc Hf Hsch. unfold ServeHTTP. run_go.
  rewrite Hs, Hr. simpl. rewrite Hdb. simpl. rewrite Hc, Hf, Hsch. simpl.
  split; [done|].
  destruct (decide (0 < size (details_of (getActivityType r) r))); simpl.
  - destruct (json_Marshal (details_of (getActivityType r) r)) as [js [err|]];
      simpl; eauto.
  - eauto.
Qed.

(** C5: the response does not depend on how persistence goes. For any
    two environments, one in which the INSERT fails and one in which
    it succeeds included, [ServeHTTP] ends the same way and hands back
    the same writer; when the request carries its context values and
    the handle is not nil, that writer is exactly what the wrapped
    handler produced on it. A failed INSERT only appends a warning to
    the log. *)
Theorem ServeHTTP_response_unaffected_by_persistence
    (m : ActivityMiddleware) (w0 : W) (r : http.Request) (s : State) (e1 e2 : Env) :
  result (ServeHTTP json_Marshal m e1 w0 r) s
    = result (ServeHTTP json_Marshal m e2 w0 r) s
  /\ (forall sid rid h,
        http.ctx_session_id r = Some sid -> http.ctx_request_id r = Some rid ->
        db s = Some h ->
        result (ServeHTTP json_Marshal m e1 w0 r) s = Ret (http.serve (next m r) w0)
        /\ result (ServeHTTP json_Marshal m e2 w0 r) s = Ret (http.serve (next m r) w0))
  /\ (forall sid rid h x,
        http.ctx_session_id r = Some sid -> http.ctx_request_id r = Some rid ->
        db s = Some h -> closed h = false -> fault e1 StepInsert = Some x ->
        logged (after (ServeHTTP json_Marshal m e1 w0 r) s)
          = logged s ++ [Warnf "Failed to log activity: %v" x]
        /\ rows (disk (after (ServeHTTP json_Marshal m e1 w0 r) s)) = rows (disk s)).
Proof.
  split; [by rewrite !ServeHTTP_result|]. split.
  - intros sid rid h Hs Hr Hdb. rewrite !ServeHTTP_result, Hs, Hr, Hdb.
    by rewrite recorder_passes_through.
  - intros sid rid h x Hs Hr Hdb Hc Hf.
    by apply (ServeHTTP_persistence_failure m e1 w0 r s sid rid h x).
Qed.
End MiddlewareProperties.

Lemma ServeHTTP_response_unaffected_by_persistence_witness :
  let m := NewActivityMiddleware twice_WriteHeader in
  let r := sample_request "POST" "/cart" "/cart" in
  let bad := failing_at 7 (only StepInsert) (EnvError "disk full") in
  result (ServeHTTP marshal_empty m bad fresh_conn r) ready
    = Ret (http.serve (next m r) fresh_conn)
  /\ result (ServeHTTP marshal_empty m (healthy 7) fresh_conn r) ready
    = Ret (http.serve (next m r) fresh_conn).
Proof.
  intros m r bad.
  apply (proj1 (proj2 (ServeHTTP_response_unaffected_by_persistence
                         marshal_empty m fresh_conn r ready bad (healthy 7)))
           "session-1" "request-1" {| dsn := dbPath; closed := false |}).
  - reflexivity.
  - reflexivity.
  - reflexivity.
Defined.

(** C3 at a handler that calls WriteHeader(404) and then
    WriteHeader(500): the first status code written is 404, the
    recorder ends with 500, and 500 is the status code of the row the
    middleware stores. *)
Theorem responseRecorder_overwrites_first_status :
  let m := NewActivityMiddleware twice_WriteHeader in
  let r := sample_request "GET" "/" "/" in
  let rr := http.serve (next m r) (mkRecorder fresh_conn 0) in
  Spec.first_status (http.sent (w rr)) = Some 404%Z
  /\ status rr = 500%Z
  /\ rows (disk (after (ServeHTTP marshal_empty m (healthy 7) fresh_conn r) ready))
     = [mkActivityLog 1 "session-1" "request-1" "page_view" "/" "GET" 500
          "USD" "" 7].
Proof.
  intros m r rr. split; [reflexivity|]. split; [reflexivity|].
  vm_compute. reflexivity.
Qed.

(** ** The SQL engine *)

(** Text comparison is transitive. *)
Lemma string_compare_Lt_trans a b c :
  String.compare a b = Lt -> String.compare b c = Lt -> String.compare a c = Lt.
Proof.
  revert b c. induction a as [|x a IH]; intros [|y b] [|z c]; simpl; try done.
  destruct (Ascii.compare x y) eqn:Exy; try done.
  - apply Ascii.compare_eq_iff in Exy as ->.
    destruct (Ascii.compare y z); try done. apply IH.
  - intros _. destruct (Ascii.compare y z) eqn:Eyz; try done.
    + apply Ascii.compare_eq_iff in Eyz as <-. by rewrite Exy.
    + intros _. unfold Ascii.compare in *.
      rewrite N.compare_lt_iff in Exy, Eyz.
      pose proof (N.lt_trans _ _ _ Exy Eyz) as Hxz.
      rewrite <- N.compare_lt_iff in Hxz. by rewrite Hxz.
Qed.

Lemma string_leb_trans a b c :
  String.leb a b = true -> String.leb b c = true -> String.leb a c = true.
Proof.
  unfold String.leb.
  destruct (String.compare a b) eqn:Eab; try done;
    destruct (String.compare b c) eqn:Ebc; try done; intros _ _.
  - apply String.compare_eq_iff in Eab as ->. by rewrite Ebc.
  - apply String.compare_eq_iff in Eab as ->. by rewrite Ebc.
  - apply String.compare_eq_iff in Ebc as <-. by rewrite Eab.
  - by rewrite (string_compare_Lt_trans a b c).
Qed.

(** Of two rows, one precedes the other in the order of ORDER BY. *)
Lemma precedes_total a b : precedes a b = false -> precedes b a = true.
Proof.
  unfold precedes. rewrite (String.compare_antisym (stamp (CreatedAt b))).
  destruct (String.compare (stamp (CreatedAt a)) (stamp (CreatedAt b))); simpl;
    try done.
  rewrite Z.leb_gt, Z.leb_le. lia.
Qed.

(** A row that precedes another has a stored text at least as great. *)
Lemma precedes_stamp a b : precedes a b = true -> stored_desc a b.
Proof.
  unfold precedes, stored_desc, String.leb.
  rewrite (String.compare_antisym (stamp (CreatedAt b))).
  by destruct (String.compare (stamp (CreatedAt a)) (stamp (CreatedAt b))).
Qed.

Lemma insert_desc_perm a l : insert_desc a l ≡ₚ a :: l.
Proof.
  induction l as [|b l IH]; simpl; [done|].
  destruct (precedes a b); [done|].
  rewrite IH. apply Permutation_swap.
Qed.

(** ORDER BY keeps exactly the rows it is given. *)
Lemma order_by_created_at_desc_perm l : order_by_created_at_desc l ≡ₚ l.
Proof.
  induction l as [|a l IH]; simpl; [done|].
  by rewrite insert_desc_perm, IH.
Qed.

Lemma insert_desc_sorted a l :
  StronglySorted stored_desc l -> StronglySorted stored_desc (insert_desc a l).
Proof.
  induction 1 as [|b l Hs IH Hb]; simpl.
  - repeat constructor.
  - destruct (precedes a b) eqn:E.
    + apply precedes_stamp in E. constructor; [by constructor|].
      constructor; [done|].
      eapply Forall_impl; [exact Hb|]. unfold stored_desc in *. intros c Hc.
      by apply (string_leb_trans _ (stamp (CreatedAt b))).
    + constructor; [done|].
      rewrite insert_desc_perm.
      constructor; [by apply precedes_stamp, precedes_total|done].
Qed.

(** ORDER BY created_at DESC yields the rows by stored text, greatest
    first. *)
Lemma order_by_created_at_desc_sorted l :
  StronglySorted stored_desc (order_by_created_at_desc l).
Proof.
  induction l as [|a l IH]; simpl; [constructor|by apply insert_desc_sorted].
Qed.

Lemma StronglySorted_take {A} (R : relation A) n l :
  StronglySorted R l -> StronglySorted R (take n l).
Proof.
  intros Hs. revert n. induction Hs as [|x l Hs IH Hx]; intros [|n]; simpl;
    try constructor; [apply IH|by apply Forall_take].
Qed.

(** Where the stored texts order the rows as their instants do, a list
    in the order of ORDER BY has the most recent first. *)
Lemma stored_desc_newest_first (rws l : list ActivityLog) :
  stamps_follow_instants rws -> l ⊆ rws ->
  StronglySorted stored_desc l -> StronglySorted newest_first l.
Proof.
  intros Hag Hsub Hs. induction Hs as [|a l Hs IH Ha]; [constructor|].
  constructor.
  - apply IH. intros x Hx. apply Hsub. by right.
  - apply Forall_forall. intros b Hb.
    rewrite Forall_forall in Ha. unfold newest_first.
    apply Hag; [apply Hsub; by right|apply Hsub; by left|].
    by apply Ha.
Qed.

(** The page a session query selects: rows of that session only, at
    most [N] of them, in the order of their stored texts, as many as
    there are up to [N]. *)
Lemma select_by_session_page S N d :
  (0 <= N)%Z ->
  Forall (fun a => SessionID a = S) (select_by_session S N d)
  /\ (Z.of_nat (length (select_by_session S N d)) <= N)%Z
  /\ StronglySorted stored_desc (select_by_session S N d)
  /\ Forall (fun a => a ∈ rows d) (select_by_session S N d)
  /\ length (select_by_session S N d)
     = Nat.min (Z.to_nat N) (length (filter (fun a => SessionID a = S) (rows d))).
Proof.
  intros HN. unfold select_by_session, sql_limit.
  destruct (N <? 0)%Z eqn:E; [apply Z.ltb_lt in E; lia|].
  set (m := filter (fun a => SessionID a = S) (rows d)).
  assert (Hm : Forall (fun a => SessionID a = S /\ a ∈ rows d)
                 (order_by_created_at_desc m)).
  { rewrite order_by_created_at_desc_perm. apply Forall_forall. intros a Ha.
    by apply list_elem_of_filter in Ha. }
  repeat split.
  - apply Forall_take. eapply Forall_impl; [exact Hm|]. by intros a [? ?].
  - rewrite length_take. lia.
  - apply StronglySorted_take, order_by_created_at_desc_sorted.
  - apply Forall_take. eapply Forall_impl; [exact Hm|]. by intros a [? ?].
  - rewrite length_take. by rewrite order_by_created_at_desc_perm.
Qed.

Lemma assoc_bump t g k :
  assoc (bump t g) k =
    if decide (k = t) then Some (default 0%Z (assoc g t) + 1)%Z else assoc g k.
Proof.
  induction g as [|[k' n] g IH]; simpl.
  - destruct (String.eqb_spec t k) as [->|Hne].
    + by rewrite decide_True.
    + rewrite decide_False; [done|congruence].
  - destruct (String.eqb_spec k' t) as [->|Hne]; simpl.
    + destruct (String.eqb_spec t k) as [->|Hne'].
      * by rewrite decide_True.
      * rewrite decide_False; [done|congruence].
    + rewrite IH. destruct (String.eqb_spec k' k) as [->|Hne'].
      * rewrite decide_False; [done|congruence].
      * done.
Qed.

Lemma assoc_None g k : assoc g k = None <-> k ∉ g.*1.
Proof.
  induction g as [|[k' n] g IH]; simpl.
  - split; [intros _; apply not_elem_of_nil|done].
  - rewrite not_elem_of_cons. destruct (String.eqb_spec k' k) as [->|Hne].
    + split; [done|]. intros [? _]. done.
    + rewrite IH. split; [intros ?; split; [congruence|done]|by intros [_ ?]].
Qed.

Lemma bump_keys t g : NoDup g.*1 -> NoDup (bump t g).*1.
Proof.
  induction g as [|[k' n] g IH]; simpl; intros Hnd.
  - apply NoDup_singleton.
  - apply NoDup_cons in Hnd as [Hk Hnd].
    destruct (String.eqb_spec k' t) as [->|Hne]; simpl.
    + by apply NoDup_cons.
    + apply NoDup_cons. split; [|by apply IH].
      apply assoc_None. rewrite assoc_bump. rewrite decide_False by done.
      by apply assoc_None.
Qed.

(** GROUP BY yields each type once ... *)
Lemma group_count_keys l : NoDup (group_count l).*1.
Proof. induction l as [|a l IH]; simpl; [constructor|by apply bump_keys]. Qed.

(** ... with its number of rows, and no group for a type without rows. *)
Lemma assoc_group_count l ty :
  assoc (group_count l) ty =
    if decide (tally ty l = 0) then None else Some (Z.of_nat (tally ty l)).
Proof.
  unfold tally. induction l as [|a l IH]; simpl; [done|].
  rewrite assoc_bump.
  destruct (decide (ty = ActivityType a)) as [->|Hne].
  - rewrite filter_cons_True by done. rewrite IH. simpl.
    destruct (decide (length (filter (λ a0, ActivityType a0 = ActivityType a) l) = 0))
      as [E|E].
    + by rewrite E.
    + simpl. f_equal. lia.
  - rewrite filter_cons_False by congruence. apply IH.
Qed.

(** The map built by the scanning loop, read key by key. *)
Lemma collect_stats_lookup g (m : gmap string Z) k :
  NoDup g.*1 ->
  foldl (fun stats row => <[row.1 := row.2]> stats) m g !! k =
    match assoc g k with Some n => Some n | None => m !! k end.
Proof.
  revert m. induction g as [|[k' n] g IH]; intros m Hnd; simpl; [done|].
  apply NoDup_cons in Hnd as [Hk Hnd]. simpl in Hk. rewrite IH by done.
  destruct (String.eqb_spec k' k) as [->|Hne].
  - apply assoc_None in Hk. rewrite Hk. apply lookup_insert_eq.
  - destruct (assoc g k); [done|]. by apply lookup_insert_ne.
Qed.

Lemma tally_window t0 t1 ty l :
  Z.of_nat (tally ty (filter (fun a => between t0 t1 a = true) l))
  = count_stored t0 t1 ty l.
Proof.
  unfold tally, count_stored. by rewrite list_filter_filter.
Qed.

(** The mapping of a statistics query, read key by key: the number of
    rows of the type whose stored text lies between the bounds' texts. *)
Lemma stats_lookup t0 t1 d ty :
  collect_stats (select_stats t0 t1 d) !! ty =
    if decide (count_stored t0 t1 ty (rows d) = 0%Z) then None
    else Some (count_stored t0 t1 ty (rows d)).
Proof.
  unfold collect_stats, select_stats.
  rewrite collect_stats_lookup by apply group_count_keys.
  rewrite assoc_group_count, <- tally_window.
  set (n := tally ty _). destruct (decide (n = 0)) as [->|Hn].
  - by rewrite lookup_empty.
  - rewrite decide_False by lia. done.
Qed.

(** Where the texts of the rows and of the bounds compare as their
    instants do, the database counts the records created in the window. *)
Lemma count_stored_in_window t0 t1 ty l :
  Forall (fun a => between t0 t1 a = true
                   <-> (instant t0 <= instant (CreatedAt a) <= instant t1)%Z) l ->
  count_stored t0 t1 ty l = Spec.count_in_window t0 t1 ty l.
Proof.
  intros Hag. unfold count_stored, Spec.count_in_window. f_equal.
  induction Hag as [|a l Ha Hl IH]; [done|].
  destruct (decide (ActivityType a = ty /\ between t0 t1 a = true)) as [Hin|Hout].
  - rewrite filter_cons_True by done. rewrite filter_cons_True; [simpl; by rewrite IH|].
    destruct Hin as [? Hb]. split; [done|]. by apply Ha.
  - rewrite filter_cons_False by done. rewrite filter_cons_False; [done|].
    intros [? Hb]. apply Hout. split; [done|]. by apply Ha.
Qed.

(** ** Repository *)

(** How a session query ends on a non-nil handle: a prefix of the
    selected page comes back, the whole page when nothing fails. *)
Lemma GetActivitiesBySession_cases e S N s h :
  db s = Some h ->
  exists k err,
    result (GetActivitiesBySession e S N) s
      = Ret (take k (select_by_session S N (disk s)), err)
    /\ (closed h = false -> has_schema (disk s) = true ->
        fault e StepSelect = None -> cut e = None ->
        err = None
        /\ take k (select_by_session S N (disk s)) = select_by_session S N (disk s)).
Proof.
  intros Hdb. run_go. rewrite Hdb. simpl.
  destruct (closed h); simpl.
  { exists 0, (Some ErrDBClosed). done. }
  destruct (fault e StepSelect) as [x|]; simpl.
  { exists 0, (Some x). done. }
  destruct (has_schema (disk s)); simpl.
  2:{ exists 0, (Some ErrNoSuchTable). done. }
  unfold iterate. destruct (cut e) as [[k x]|].
  - destruct (decide (k < length (select_by_session S N (disk s)))).
    + exists k, (Some x). done.
    + exists (length (select_by_session S N (disk s))), None. by rewrite firstn_all.
  - exists (length (select_by_session S N (disk s))), None. by rewrite firstn_all.
Qed.

(** C8 at a session with two activities logged in the night of
    October 27, 2024 by a process whose local time goes from +02:00
    back to +01:00: the first at 02:30 before the change, the second
    forty minutes later, at 02:10 after it. The session query returns
    the first, older record ahead of the second: the list is not
    ordered by creation time, most recent first. The database has
    sorted the texts of the two timestamps. *)
Theorem GetActivitiesBySession_returns_older_first :
  let s := two_zone_store in
  let older := stored_row 1 visit before_change in
  let newer := stored_row 2 visit after_change in
  rows (disk s) = [older; newer]
  /\ (instant (CreatedAt older) < instant (CreatedAt newer))%Z
  /\ result (GetActivitiesBySession (healthy later_that_night) "s1" 10) s
     = Ret ([older; newer], None)
  /\ ~ StronglySorted newest_first [older; newer].
Proof.
  intros s older newer.
  split; [vm_compute; reflexivity|]. split; [vm_compute; reflexivity|].
  split; [vm_compute; reflexivity|].
  intros Hs. apply StronglySorted_inv in Hs as [_ Hf].
  apply Forall_inv in Hf. unfold newest_first in Hf. vm_compute in Hf. by apply Hf.
Qed.

(** C7 at a store with one page view logged at noon UTC of January 1,
    2024 by a process running in UTC, and the window from 11:00 to
    13:00 UTC given as 16:00 and 18:00 at +05:00: the record's creation
    time lies within the window, one record of type page_view is to be
    counted, and the mapping returned is empty. The database has
    compared the texts of the three timestamps. *)
Theorem GetActivityStats_misses_record_in_window :
  let s := noon_store in
  let t0 := eleven_utc_in_plus5 in
  let t1 := thirteen_utc_in_plus5 in
  rows (disk s) = [stored_row 1 visit noon_utc]
  /\ (instant t0 <= instant noon_utc <= instant t1)%Z
  /\ Spec.count_in_window t0 t1 "page_view" (rows (disk s)) = 1%Z
  /\ result (GetActivityStats (healthy t1) t0 t1) s = Ret (Some ∅, None)
  /\ (∅ : gmap string Z) !! "page_view" = None.
Proof.
  intros s t0 t1.
  split; [vm_compute; reflexivity|].
  split; [vm_compute; split; congruence|].
  split; [vm_compute; reflexivity|].
  split; [vm_compute; reflexivity|].
  apply lookup_empty.
Qed.

Lemma LogActivity_sends e a : LogActivity e a = (h ← GetDB; db_Exec e h (insert_of a (clock e))).
Proof. reflexivity. Qed.

(** Every way [LogActivity] can end on a non-nil handle. *)
Lemma LogActivity_cases e a s h :
  db s = Some h ->
  LogActivity e a s =
    if closed h then (Ret (Some ErrDBClosed), s)
    else
      let s1 := add_issued (insert_of a (clock e)) s in
      match fault e StepInsert with
      | Some x => (Ret (Some x), s1)
      | None =>
          if has_schema (disk s) then
            (Ret None,
             set_disk (set_rows (rows (disk s)
                                   ++ [stored_row (seq (disk s) + 1) a (clock e)])
                         (seq (disk s) + 1) (disk s)) s1)
          else (Ret (Some ErrNoSuchTable), s1)
      end.
Proof.
  intros Hdb. run_go. rewrite Hdb. simpl.
  destruct (closed h); simpl; [done|].
  destruct (fault e StepInsert); simpl; [done|].
  destruct (has_schema (disk s)); simpl; done.
Qed.

(** C9: [LogActivity] makes one attempt. On a non-nil handle it never
    panics. When it returns nil, exactly one row was appended: it
    carries the caller's eight fields, the next row id, and the time of
    the insert as creation time. When it returns an error, no row was
    added and at most one statement was sent: nothing is retried. The
    caller's CreatedAt (and ID) play no part: any other value gives the
    same run. With the schema present and no failure the call returns
    nil; a failure of the INSERT is returned as it is. *)
Theorem LogActivity_inserts_one_row (e : Env) (a : ActivityLog) (s : State) (h : DB) :
  db s = Some h ->
  let s' := after (LogActivity e a) s in
  (forall t id, LogActivity e (with_created_at t a) s = LogActivity e a s
                /\ stored_row id (with_created_at t a) (clock e)
                   = stored_row id a (clock e))
  /\ match result (LogActivity e a) s with
     | Ret None =>
         rows (disk s') = rows (disk s) ++ [stored_row (seq (disk s) + 1) a (clock e)]
         /\ CreatedAt (stored_row (seq (disk s) + 1) a (clock e)) = clock e
         /\ issued s' = issued s ++ [insert_of a (clock e)]
     | Ret (Some x) =>
         rows (disk s') = rows (disk s)
         /\ (issued s' = issued s \/ issued s' = issued s ++ [insert_of a (clock e)])
     | Panic _ => False
     end
  /\ (closed h = false -> has_schema (disk s) = true -> fault e StepInsert = None ->
      result (LogActivity e a) s = Ret None)
  /\ (forall x, closed h = false -> fault e StepInsert = Some x ->
      result (LogActivity e a) s = Ret (Some x)
      /\ issued s' = issued s ++ [insert_of a (clock e)]).
Proof.
  intros Hdb s'. unfold s', after, result.
  split; [|rewrite (LogActivity_cases e a s h Hdb); split; [|split]].
  - intros t id. split; [|done].
    by rewrite !LogActivity_sends.
  - destruct (closed h); simpl; [by auto|].
    destruct (fault e StepInsert); simpl; [by auto|].
    destruct (has_schema (disk s)); simpl; by auto.
  - intros -> -> ->. done.
  - intros x -> ->. done.
Qed.

Lemma LogActivity_inserts_one_row_witness :
  let a := mkActivityLog 99 "s1" "r1" "add_to_cart" "/cart" "POST" 302 "EUR"
             "{}" 45 in
  result (LogActivity (healthy 7) a) ready = Ret None
  /\ rows (disk (after (LogActivity (healthy 7) a) ready))
     = [mkActivityLog 1 "s1" "r1" "add_to_cart" "/cart" "POST" 302 "EUR" "{}" 7].
Proof.
  intros a.
  pose proof (LogActivity_inserts_one_row (healthy 7) a ready
                {| dsn := dbPath; closed := false |} eq_refl) as (_ & Hrun & Hok & _).
  assert (Hres : result (LogActivity (healthy 7) a) ready = Ret None).
  { apply Hok; reflexivity. }
  rewrite Hres in Hrun. destruct Hrun as (Hrows & _ & _).
  split; [exact Hres | exact Hrows].
Defined.

(** ** Immutability of persisted rows *)

Section MachineProperties.
Variable json_Marshal : gmap string string -> string * option error.

(** The operations that only read leave the rows as they are. *)
Lemma perform_read_only e op s :
  read_only op = true ->
  rows (disk (after (perform json_Marshal e op) s)) = rows (disk s).
Proof.
  destruct op; simpl; try done; intros _; run_go;
    destruct (db s) as [c|]; simpl; try done;
    destruct (closed c); simpl; try done;
    destruct (fault e StepSelect); simpl; try done;
    destruct (has_schema (disk s)); simpl; done.
Qed.

(** Every operation keeps the rows or appends one row to them. *)
Lemma perform_rows e op s :
  rows (disk (after (perform json_Marshal e op) s)) = rows (disk s)
  \/ exists a, rows (disk (after (perform json_Marshal e op) s)) = rows (disk s) ++ [a].
Proof.
  destruct (read_only op) eqn:Hro; [left; by apply perform_read_only|].
  destruct op; simpl in Hro; try done; simpl.
  - (* InitDB *)
    left. run_go. destruct (once s); simpl; [done|].
    unfold schema; simpl. init_cases e.
  - (* CloseDB *)
    left. run_go. by destruct (db s).
  - (* LogActivity *)
    run_go. destruct (db s) as [c|]; simpl; [|by left].
    destruct (closed c); simpl; [by left|].
    destruct (fault e StepInsert); simpl; [by left|].
    destruct (has_schema (disk s)); simpl; eauto.
  - (* ServeHTTP *)
    unfold ServeHTTP. run_go.
    destruct (http.ctx_session_id r); simpl; [|by left].
    destruct (http.ctx_request_id r); simpl; [|by left].
    destruct (db s) as [h|]; simpl; [|by left].
    destruct (closed h); simpl; [by left|].
    destruct (fault e StepInsert); simpl; [by left|].
    destruct (has_schema (disk s)); simpl; eauto.
Qed.

Lemma history_rows_prefix ops s :
  rows (disk s) `prefix_of` rows (disk (history json_Marshal ops s)).
Proof.
  revert s. induction ops as [|[e op] ops IH]; intros s; simpl; [done|].
  etrans; [|apply IH].
  destruct (perform_rows e op s) as [-> | [a ->]]; [done|].
  by apply prefix_app_r.
Qed.

(** C10: persisted records are never modified or deleted. Every
    operation of the subsystem leaves the rows as they are or appends
    one row; the three queries (and the accessor) leave them as they
    are. Hence, through any history of operations in any environments,
    the rows present at the start remain an unchanged prefix of the
    table: a row found at a position stays at that position. *)
Theorem persisted_rows_are_immutable (ops : list (Env * Op)) (s : State) :
  rows (disk s) `prefix_of` rows (disk (history json_Marshal ops s))
  /\ (forall i a,
        rows (disk s) !! i = Some a ->
        rows (disk (history json_Marshal ops s)) !! i = Some a)
  /\ (forall e op,
        read_only op = true ->
        rows (disk (after (perform json_Marshal e op) s)) = rows (disk s))
  /\ (forall e op,
        rows (disk (after (perform json_Marshal e op) s)) = rows (disk s)
        \/ exists a,
            rows (disk (after (perform json_Marshal e op) s)) = rows (disk s) ++ [a]).
Proof.
  split; [apply history_rows_prefix|]. split.
  - intros i a Hi. eapply prefix_lookup_Some; [exact Hi|apply history_rows_prefix].
  - split; [intros e op; apply perform_read_only|intros e op; apply perform_rows].
Qed.
End MachineProperties.

Lemma persisted_rows_are_immutable_witness :
  let a := mkActivityLog 0 "s1" "r1" "page_view" "/" "GET" 200 "USD" "" 0 in
  let s := after (LogActivity (healthy 5) a) ready in
  let ops := [(healthy 6, CallLogActivity a);
              (healthy 7, CallGetRecentActivities 10);
              (healthy 8, CallServeHTTP (NewActivityMiddleware twice_WriteHeader)
                            fresh_conn (sample_request "POST" "/cart" "/cart"));
              (healthy 9, CallCloseDB);
              (healthy 10, CallInitDB)] in
  rows (disk (history marshal_empty ops s)) !! 0
    = Some (mkActivityLog 1 "s1" "r1" "page_view" "/" "GET" 200 "USD" "" 5).
Proof.
  intros a s ops.
  apply (proj1 (proj2 (persisted_rows_are_immutable marshal_empty ops s))).
  reflexivity.
Defined.

(** * Further properties of the code *)

(** ** Store: closing, ordering of the setup steps, restarts *)

Lemma closed_handle_refuses e c st s :
  closed c = true -> send e (Some c) st s = (Ret (NoRows, Some ErrDBClosed), s).
Proof. intros Hc. unfold send. by rewrite Hc. Qed.

Lemma CloseDB_run e s :
  CloseDB e s =
    match db s with
    | Some h => (Ret (fault e StepClose), set_db (Some {| dsn := dsn h; closed := true |}) s)
    | None => (Ret None, s)
    end.
Proof. run_go. by destruct (db s). Qed.

(** X1: [CloseDB] never panics. With a nil handle it returns nil and
    changes nothing, whatever the environment. With a handle it marks
    that handle closed and returns what closing reported; the database
    file, its rows, the Once, the statements issued and the log stay as
    they were. *)
Theorem CloseDB_only_closes (e : Env) (s : State) :
  let s1 := after (CloseDB e) s in
  (exists r, result (CloseDB e) s = Ret r)
  /\ disk s1 = disk s /\ once s1 = once s
  /\ issued s1 = issued s /\ logged s1 = logged s
  /\ (db s = None -> CloseDB e s = (Ret None, s))
  /\ (forall h, db s = Some h ->
        result (CloseDB e) s = Ret (fault e StepClose)
        /\ db s1 = Some {| dsn := dsn h; closed := true |}).
Proof.
  unfold result, after. rewrite CloseDB_run.
  destruct (db s) as [h|] eqn:Hdb; simpl.
  - split; [by eexists|]. do 4 (split; [done|]). split; [done|].
    intros h' [= <-]. done.
  - split; [by eexists|]. do 4 (split; [done|]). split; [|done].
    intros _. done.
Qed.

Lemma CloseDB_only_closes_witness :
  CloseDB (failing_at 0 (only StepClose) (EnvError "close failed")) (boot blank_disk)
    = (Ret None, boot blank_disk)
  /\ db (after (CloseDB (healthy 0)) ready)
     = Some {| dsn := dbPath; closed := true |}.
Proof.
  split.
  - apply (CloseDB_only_closes
             (failing_at 0 (only StepClose) (EnvError "close failed")) (boot blank_disk)).
    reflexivity.
  - apply (proj2 (proj2 (proj2 (proj2 (proj2 (proj2
             (CloseDB_only_closes (healthy 0) ready))))))
             {| dsn := dbPath; closed := false |}).
    reflexivity.
Defined.

(** X2: a store that was initialized and then closed stays closed.
    [InitDB] called after [CloseDB] returns nil but does not reopen the
    handle (the Once is spent), and from then on [LogActivity] and the
    three queries return the closed-database error, send nothing to the
    driver, and leave the state untouched. *)
Theorem closed_store_stays_closed
    (s : State) (h : DB) (e_close e_init e : Env)
    (a : ActivityLog) (S : string) (N : Z) (t0 t1 : Time) :
  once s = true -> db s = Some h ->
  let s1 := after (CloseDB e_close) s in
  InitDB e_init s1 = (Ret None, s1)
  /\ LogActivity e a s1 = (Ret (Some ErrDBClosed), s1)
  /\ GetActivitiesBySession e S N s1 = (Ret ([], Some ErrDBClosed), s1)
  /\ GetRecentActivities e N s1 = (Ret ([], Some ErrDBClosed), s1)
  /\ GetActivityStats e t0 t1 s1 = (Ret (None, Some ErrDBClosed), s1).
Proof.
  intros Hd Hdb s1.
  assert (Hs1 : s1 = set_db (Some {| dsn := dsn h; closed := true |}) s).
  { unfold s1, after. by rewrite CloseDB_run, Hdb. }
  assert (Hdb1 : db s1 = Some {| dsn := dsn h; closed := true |}) by by rewrite Hs1.
  split; [apply InitDB_skipped; by rewrite Hs1|].
  repeat split; run_go; rewrite Hdb1; done.
Qed.

Lemma closed_store_stays_closed_witness :
  let s1 := after (CloseDB (healthy 1)) stocked in
  InitDB (healthy 2) s1 = (Ret None, s1)
  /\ LogActivity (healthy 3) (mkActivityLog 0 "s1" "r9" "page_view" "/" "GET" 200 "USD" "" 0) s1
     = (Ret (Some ErrDBClosed), s1)
  /\ GetActivitiesBySession (healthy 3) "s1" 5 s1 = (Ret ([], Some ErrDBClosed), s1)
  /\ GetRecentActivities (healthy 3) 5 s1 = (Ret ([], Some ErrDBClosed), s1)
  /\ GetActivityStats (healthy 3) 0 50 s1 = (Ret (None, Some ErrDBClosed), s1).
Proof.
  apply (closed_store_stays_closed stocked {| dsn := dbPath; closed := false |}
           (healthy 1) (healthy 2) (healthy 3)).
  - reflexivity.
  - reflexivity.
Defined.



(** X4: starting a process on an existing database keeps its records.
    [InitDB] never changes the rows or the id sequence of the file it
    opens, whether it succeeds or fails; after a successful [InitDB] the
    next record is appended behind the old ones with the next id. *)
Theorem InitDB_keeps_existing_rows (e : Env) (d : Disk) :
  let s1 := after (InitDB e) (boot d) in
  rows (disk s1) = rows d
  /\ seq (disk s1) = seq d
  /\ (first_fault e = None ->
      forall e' a, fault e' StepInsert = None ->
        result (LogActivity e' a) s1 = Ret None
        /\ rows (disk (after (LogActivity e' a) s1))
           = rows d ++ [stored_row (seq d + 1) a (clock e')]).
Proof.
  intros s1. unfold s1.
  assert (Hkeep : rows (disk (after (InitDB e) (boot d))) = rows d
                  /\ seq (disk (after (InitDB e) (boot d))) = seq d).
  { run_go. unfold schema; simpl. init_cases e. }
  destruct Hkeep as [Hrows Hseq]. split; [done|]. split; [done|].
  intros Hf e' a Hins.
  destruct (InitDB_first_success e (boot d) eq_refl Hf) as (Hdb & Hsch & _).
  pose proof (LogActivity_cases e' a _ _ Hdb) as Hrun. simpl in Hrun.
  rewrite Hins, Hsch, Hrows, Hseq in Hrun.
  set (s2 := after (InitDB e) (boot d)) in *.
  unfold result, after. rewrite Hrun. done.
Qed.

Lemma InitDB_keeps_existing_rows_witness :
  let d := set_rows three_rows 3 (disk ready) in
  let a := mkActivityLog 0 "s3" "r4" "page_view" "/" "GET" 200 "USD" "" 0 in
  let s1 := after (InitDB (healthy 40)) (boot d) in
  result (LogActivity (healthy 50) a) s1 = Ret None
  /\ rows (disk (after (LogActivity (healthy 50) a) s1))
     = three_rows ++ [mkActivityLog 4 "s3" "r4" "page_view" "/" "GET" 200 "USD" "" 50].
Proof.
  intros d a s1.
  apply (proj2 (proj2 (InitDB_keeps_existing_rows (healthy 40) d))).
  - reflexivity.
  - reflexivity.
Defined.

(** ** Repository: what the queries return *)

(** The three queries on an open handle, schema present, nothing failing. *)
Lemma GetRecentActivities_ok e N s h :
  db s = Some h -> closed h = false -> has_schema (disk s) = true ->
  fault e StepSelect = None -> cut e = None ->
  GetRecentActivities e N s
    = (Ret (select_recent N (disk s), None), add_issued (SelectRecent N) s).
Proof.
  intros Hdb Hc Hsch Hf Hcut. run_go. rewrite Hdb. simpl.
  rewrite Hc, Hf, Hsch. simpl. unfold iterate. rewrite Hcut. by destruct s.
Qed.

Lemma GetActivitiesBySession_ok e S N s h :
  db s = Some h -> closed h = false -> has_schema (disk s) = true ->
  fault e StepSelect = None -> cut e = None ->
  GetActivitiesBySession e S N s
    = (Ret (select_by_session S N (disk s), None), add_issued (SelectBySession S N) s).
Proof.
  intros Hdb Hc Hsch Hf Hcut. run_go. rewrite Hdb. simpl.
  rewrite Hc, Hf, Hsch. simpl. unfold iterate. rewrite Hcut. by destruct s.
Qed.

Lemma GetActivityStats_ok e t0 t1 s h :
  db s = Some h -> closed h = false -> has_schema (disk s) = true ->
  fault e StepSelect = None -> cut e = None ->
  GetActivityStats e t0 t1 s
    = (Ret (Some (collect_stats (select_stats t0 t1 (disk s))), None),
       add_issued (SelectStats t0 t1) s).
Proof.
  intros Hdb Hc Hsch Hf Hcut. run_go. rewrite Hdb. simpl.
  rewrite Hc, Hf, Hsch. simpl. unfold iterate. rewrite Hcut. by destruct s.
Qed.

(** [LogActivity] on an open handle, schema present, nothing failing. *)
Lemma LogActivity_ok e a s h :
  db s = Some h -> closed h = false -> has_schema (disk s) = true ->
  fault e StepInsert = None ->
  let s' := after (LogActivity e a) s in
  result (LogActivity e a) s = Ret None
  /\ db s' = db s
  /\ has_schema (disk s') = true
  /\ rows (disk s') = rows (disk s) ++ [stored_row (seq (disk s) + 1) a (clock e)]
  /\ seq (disk s') = (seq (disk s) + 1)%Z.
Proof.
  intros Hdb Hc Hsch Hf. unfold result, after.
  rewrite (LogActivity_cases e a s h Hdb), Hc, Hf, Hsch. simpl. done.
Qed.

(** The page of the records with the greatest stored texts. *)
Lemma select_recent_page N d :
  (0 <= N)%Z ->
  (Z.of_nat (length (select_recent N d)) <= N)%Z
  /\ StronglySorted stored_desc (select_recent N d)
  /\ Forall (fun a => a ∈ rows d) (select_recent N d)
  /\ length (select_recent N d) = Nat.min (Z.to_nat N) (length (rows d)).
Proof.
  intros HN. unfold select_recent, sql_limit.
  destruct (N <? 0)%Z eqn:E; [apply Z.ltb_lt in E; lia|].
  repeat split.
  - rewrite length_take. lia.
  - apply StronglySorted_take, order_by_created_at_desc_sorted.
  - apply Forall_take. rewrite order_by_created_at_desc_perm.
    by apply Forall_forall.
  - rewrite length_take. by rewrite order_by_created_at_desc_perm.
Qed.

Lemma GetRecentActivities_cases e N s h :
  db s = Some h ->
  exists k err,
    result (GetRecentActivities e N) s = Ret (take k (select_recent N (disk s)), err)
    /\ (closed h = false -> has_schema (disk s) = true ->
        fault e StepSelect = None -> cut e = None ->
        err = None
        /\ take k (select_recent N (disk s)) = select_recent N (disk s)).
Proof.
  intros Hdb. run_go. rewrite Hdb. simpl.
  destruct (closed h); simpl.
  { exists 0, (Some ErrDBClosed). done. }
  destruct (fault e StepSelect) as [x|]; simpl.
  { exists 0, (Some x). done. }
  destruct (has_schema (disk s)); simpl.
  2:{ exists 0, (Some ErrNoSuchTable). done. }
  unfold iterate. destruct (cut e) as [[k x]|].
  - destruct (decide (k < length (select_recent N (disk s)))).
    + exists k, (Some x). done.
    + exists (length (select_recent N (disk s))), None. by rewrite firstn_all.
  - exists (length (select_recent N (disk s))), None. by rewrite firstn_all.
Qed.

(** The three example records, written in UTC within one minute, are
    ordered by their stored texts as by their instants. *)
Lemma three_rows_follow : stamps_follow_instants three_rows.
Proof.
  intros a b Ha Hb. unfold three_rows in Ha, Hb.
  repeat (apply elem_of_cons in Ha as [-> | Ha]); try (by apply elem_of_nil in Ha);
    repeat (apply elem_of_cons in Hb as [-> | Hb]); try (by apply elem_of_nil in Hb);
    vm_compute; intros; congruence.
Qed.

(** X5: for every positive limit [N] and store state with a handle,
    [GetRecentActivities] returns a list of persisted records, of
    length at most [N], in the order of their stored timestamp texts,
    greatest first. Where the
    stored texts order the persisted records as their instants do (all
    written with one zone offset), that is most recent first. When
    nothing fails it reports no error and the list holds as many
    records as the limit allows. *)
Theorem GetRecentActivities_sound (e : Env) (N : Z) (s : State) (h : DB) :
  (0 < N)%Z -> db s = Some h ->
  exists l err,
    result (GetRecentActivities e N) s = Ret (l, err)
    /\ (Z.of_nat (length l) <= N)%Z
    /\ StronglySorted stored_desc l
    /\ (stamps_follow_instants (rows (disk s)) -> StronglySorted newest_first l)
    /\ Forall (fun a => a ∈ rows (disk s)) l
    /\ (closed h = false -> has_schema (disk s) = true ->
        fault e StepSelect = None -> cut e = None ->
        err = None
        /\ length l = Nat.min (Z.to_nat N) (length (rows (disk s)))).
Proof.
  intros HN Hdb.
  destruct (GetRecentActivities_cases e N s h Hdb) as (k & err & Hres & Hok).
  destruct (select_recent_page N (disk s)) as (Hlen & Hsort & Hin & Hfull); [lia|].
  exists (take k (select_recent N (disk s))), err.
  split; [done|]. split.
  { rewrite length_take. lia. }
  split; [by apply StronglySorted_take|]. split.
  { intros Hag. apply (stored_desc_newest_first (rows (disk s))); [done| |].
    - intros a Ha. apply elem_of_take in Ha as (i & Ha & _).
      rewrite Forall_forall in Hin. apply Hin. by eapply list_elem_of_lookup_2.
    - by apply StronglySorted_take. }
  split; [by apply Forall_take|].
  intros Hc Hsch Hf Hcut. destruct (Hok Hc Hsch Hf Hcut) as [-> ->]. done.
Qed.

Lemma GetRecentActivities_sound_witness :
  exists l err,
    result (GetRecentActivities (healthy 40) 2) stocked = Ret (l, err)
    /\ (Z.of_nat (length l) <= 2)%Z
    /\ StronglySorted stored_desc l
    /\ StronglySorted newest_first l
    /\ Forall (fun a => a ∈ rows (disk stocked)) l
    /\ err = None
    /\ length l = 2.
Proof.
  destruct (GetRecentActivities_sound (healthy 40) 2 stocked
              {| dsn := dbPath; closed := false |})
    as (l & err & Hres & Hlen & Hs & Hn & Hin & Hok).
  - lia.
  - reflexivity.
  - exists l, err.
    split; [exact Hres|]. split; [exact Hlen|]. split; [exact Hs|].
    split; [exact (Hn three_rows_follow)|]. split; [exact Hin|].
    apply Hok; reflexivity.
Defined.

(** X6: a limit that is not smaller than the number of records loses
    nothing. When nothing fails and [N] is at least the number of
    persisted records, [GetRecentActivities] returns every record
    exactly once (a rearrangement of the table); when [N] is at least
    the number of records of session [S], [GetActivitiesBySession]
    returns every record of that session exactly once. *)
Theorem queries_return_every_record
    (e : Env) (S : string) (N : Z) (s : State) (h : DB) :
  db s = Some h -> closed h = false -> has_schema (disk s) = true ->
  fault e StepSelect = None -> cut e = None ->
  ((Z.of_nat (length (rows (disk s))) <= N)%Z ->
   exists l, result (GetRecentActivities e N) s = Ret (l, None)
             /\ l ≡ₚ rows (disk s))
  /\ ((Z.of_nat (length (filter (fun a => SessionID a = S) (rows (disk s)))) <= N)%Z ->
      exists l, result (GetActivitiesBySession e S N) s = Ret (l, None)
                /\ l ≡ₚ filter (fun a => SessionID a = S) (rows (disk s))).
Proof.
  intros Hdb Hc Hsch Hf Hcut. split; intros HN.
  - exists (select_recent N (disk s)).
    unfold result. rewrite (GetRecentActivities_ok e N s h) by done.
    split; [done|]. unfold select_recent, sql_limit.
    destruct (N <? 0)%Z; [apply order_by_created_at_desc_perm|].
    rewrite take_ge; [apply order_by_created_at_desc_perm|].
    rewrite order_by_created_at_desc_perm. lia.
  - exists (select_by_session S N (disk s)).
    unfold result. rewrite (GetActivitiesBySession_ok e S N s h) by done.
    split; [done|]. unfold select_by_session, sql_limit.
    destruct (N <? 0)%Z; [apply order_by_created_at_desc_perm|].
    rewrite take_ge; [apply order_by_created_at_desc_perm|].
    rewrite order_by_created_at_desc_perm. lia.
Qed.

Lemma queries_return_every_record_witness :
  (exists l, result (GetRecentActivities (healthy 40) 3) stocked = Ret (l, None)
             /\ l ≡ₚ rows (disk stocked))
  /\ (exists l, result (GetActivitiesBySession (healthy 40) "s1" 2) stocked = Ret (l, None)
                /\ l ≡ₚ filter (fun a => SessionID a = "s1") (rows (disk stocked))).
Proof.
  destruct (queries_return_every_record (healthy 40) "s1" 3 stocked
              {| dsn := dbPath; closed := false |}
              eq_refl eq_refl eq_refl eq_refl eq_refl) as [Hall _].
  destruct (queries_return_every_record (healthy 40) "s1" 2 stocked
              {| dsn := dbPath; closed := false |}
              eq_refl eq_refl eq_refl eq_refl eq_refl) as [_ Hone].
  split.
  - apply Hall. vm_compute. discriminate.
  - apply Hone. vm_compute. discriminate.
Defined.

(** ORDER BY puts a record whose stored text is greater than all
    others first. *)
Lemma foldr_insert_desc_newest x m l :
  all_before (CreatedAt x) l ->
  foldr insert_desc (x :: m) l = x :: foldr insert_desc m l.
Proof.
  induction 1 as [|b l Hb Hl IH]; simpl; [done|].
  rewrite IH. simpl. unfold precedes.
  unfold String.ltb in Hb.
  by destruct (String.compare (stamp (CreatedAt b)) (stamp (CreatedAt x))).
Qed.

Lemma order_by_created_at_desc_newest x l :
  all_before (CreatedAt x) l ->
  order_by_created_at_desc (l ++ [x]) = x :: order_by_created_at_desc l.
Proof.
  intros Hl. unfold order_by_created_at_desc. rewrite foldr_app. simpl.
  by apply foldr_insert_desc_newest.
Qed.

(** X7: write, then read back. After a successful [LogActivity] at a
    time whose timestamp text is greater than the stored text of every
    persisted record, [GetRecentActivities] with a positive limit [N]
    returns the new record first, with the id the store assigned and
    the insert time as creation time, followed by what the query with
    limit [N - 1] returned before; with limit 1 it returns exactly the
    new record. *)
Theorem LogActivity_then_GetRecentActivities
    (e e' : Env) (a : ActivityLog) (N : Z) (s : State) (h : DB) :
  db s = Some h -> closed h = false -> has_schema (disk s) = true ->
  fault e StepInsert = None -> fault e' StepSelect = None -> cut e' = None ->
  all_before (clock e) (rows (disk s)) -> (0 < N)%Z ->
  let s' := after (LogActivity e a) s in
  let new := stored_row (seq (disk s) + 1) a (clock e) in
  result (GetRecentActivities e' N) s'
    = Ret (new :: select_recent (N - 1) (disk s), None)
  /\ result (GetRecentActivities e' 1) s' = Ret ([new], None).
Proof.
  intros Hdb Hc Hsch Hf Hf' Hcut Hold HN s' new.
  destruct (LogActivity_ok e a s h Hdb Hc Hsch Hf) as (_ & Hdb' & Hsch' & Hrows & _).
  fold s' in Hdb', Hsch', Hrows. rewrite Hdb in Hdb'.
  assert (Hpage : forall n, (0 < n)%Z ->
            select_recent n (disk s') = new :: select_recent (n - 1) (disk s)).
  { intros n Hn. unfold select_recent, sql_limit. rewrite Hrows.
    rewrite order_by_created_at_desc_newest by done.
    destruct (n <? 0)%Z eqn:E1; [apply Z.ltb_lt in E1; lia|].
    destruct (n - 1 <? 0)%Z eqn:E2; [apply Z.ltb_lt in E2; lia|].
    replace (Z.to_nat n) with (Datatypes.S (Z.to_nat (n - 1))) by lia. done. }
  unfold result.
  rewrite !(GetRecentActivities_ok e' _ s' h) by done. simpl.
  rewrite !Hpage by lia. split; [done|].
  by replace (1 - 1)%Z with 0%Z by lia.
Qed.

Lemma LogActivity_then_GetRecentActivities_witness :
  let a := mkActivityLog 0 "s3" "r4" "add_to_cart" "/cart" "POST" 302 "EUR" "{}" 0 in
  result (GetRecentActivities (healthy 55) 1) (after (LogActivity (healthy 50) a) stocked)
    = Ret ([mkActivityLog 4 "s3" "r4" "add_to_cart" "/cart" "POST" 302 "EUR" "{}" 50], None).
Proof.
  intros a.
  apply (LogActivity_then_GetRecentActivities (healthy 50) (healthy 55) a 1 stocked
           {| dsn := dbPath; closed := false |});
    try reflexivity.
  repeat constructor.
Defined.

(** What a call of [LogActivity] can leave behind. *)
Lemma LogActivity_after e a s :
  let s' := after (LogActivity e a) s in
  db s' = db s /\ has_schema (disk s') = has_schema (disk s)
  /\ (rows (disk s') = rows (disk s)
      \/ rows (disk s') = rows (disk s) ++ [stored_row (seq (disk s) + 1) a (clock e)]).
Proof.
  run_go. destruct (db s) as [h|] eqn:Hdb; simpl; [|by auto].
  destruct (closed h); simpl; [by auto|].
  destruct (fault e StepInsert); simpl; [by auto|].
  destruct (has_schema (disk s)) eqn:Hsch; simpl; by auto.
Qed.

(** X8: sessions do not see each other's records. Logging an activity
    of one session changes nothing in what [GetActivitiesBySession]
    returns for any other session, in every state and environment. *)
Theorem LogActivity_leaves_other_sessions
    (e e' : Env) (a : ActivityLog) (S : string) (N : Z) (s : State) :
  SessionID a <> S ->
  result (GetActivitiesBySession e' S N) (after (LogActivity e a) s)
    = result (GetActivitiesBySession e' S N) s.
Proof.
  intros Hne.
  destruct (LogActivity_after e a s) as (Hdb & Hsch & Hrows).
  set (s' := after (LogActivity e a) s) in *.
  assert (Hpage : select_by_session S N (disk s') = select_by_session S N (disk s)).
  { unfold select_by_session. destruct Hrows as [-> | ->]; [done|].
    rewrite filter_app, filter_cons_False by done.
    rewrite filter_nil. by rewrite app_nil_r. }
  run_go. rewrite Hdb. destruct (db s) as [h|]; simpl; [|done].
  destruct (closed h); simpl; [done|].
  destruct (fault e' StepSelect); simpl; [done|].
  rewrite Hsch. destruct (has_schema (disk s)); simpl; [|done].
  by rewrite Hpage.
Qed.

Lemma LogActivity_leaves_other_sessions_witness :
  let a := mkActivityLog 0 "s3" "r4" "add_to_cart" "/cart" "POST" 302 "EUR" "{}" 0 in
  result (GetActivitiesBySession (healthy 55) "s1" 10)
    (after (LogActivity (healthy 50) a) stocked)
  = result (GetActivitiesBySession (healthy 55) "s1" 10) stocked.
Proof.
  intros a.
  apply (LogActivity_leaves_other_sessions (healthy 50) (healthy 55) a "s1" 10 stocked).
  discriminate.
Defined.

Lemma count_stored_snoc t0 t1 ty l x :
  count_stored t0 t1 ty (l ++ [x])
  = (count_stored t0 t1 ty l
     + if decide (ActivityType x = ty /\ between t0 t1 x = true) then 1 else 0)%Z.
Proof.
  unfold count_stored. rewrite filter_app, length_app.
  destruct (decide (ActivityType x = ty /\ between t0 t1 x = true)) as [Hx|Hx].
  - rewrite filter_cons_True by done. simpl. lia.
  - rewrite filter_cons_False by done. simpl. lia.
Qed.

Lemma count_stored_nonneg t0 t1 ty l : (0 <= count_stored t0 t1 ty l)%Z.
Proof. unfold count_stored. lia. Qed.

(** X9: every logged activity counts once. After a successful
    [LogActivity], the statistics over a window that contains the new
    row (the text of the insert time lying between the texts of the
    two bounds) give the activity's type one more than before (1 if
    the type was absent) and every other type what it had; over a
    window that does not contain it they are unchanged. *)
Theorem LogActivity_counts_once
    (e e' : Env) (a : ActivityLog) (t0 t1 : Time) (s : State) (h : DB) :
  db s = Some h -> closed h = false -> has_schema (disk s) = true ->
  fault e StepInsert = None -> fault e' StepSelect = None -> cut e' = None ->
  exists before after_,
    result (GetActivityStats e' t0 t1) s = Ret (Some before, None)
    /\ result (GetActivityStats e' t0 t1) (after (LogActivity e a) s)
       = Ret (Some after_, None)
    /\ forall ty,
        after_ !! ty =
          if decide (ty = ActivityType a
                     /\ between t0 t1 (stored_row (seq (disk s) + 1) a (clock e)) = true)
          then Some (default 0%Z (before !! ty) + 1)%Z
          else before !! ty.
Proof.
  intros Hdb Hc Hsch Hf Hf' Hcut.
  destruct (LogActivity_ok e a s h Hdb Hc Hsch Hf) as (_ & Hdb' & Hsch' & Hrows & _).
  set (s' := after (LogActivity e a) s) in *. rewrite Hdb in Hdb'.
  exists (collect_stats (select_stats t0 t1 (disk s))),
         (collect_stats (select_stats t0 t1 (disk s'))).
  unfold result.
  rewrite (GetActivityStats_ok e' t0 t1 s h), (GetActivityStats_ok e' t0 t1 s' h) by done.
  split; [done|]. split; [done|].
  intros ty. rewrite !stats_lookup, Hrows, count_stored_snoc. simpl.
  pose proof (count_stored_nonneg t0 t1 ty (rows (disk s))) as Hn.
  set (n := count_stored t0 t1 ty (rows (disk s))) in *.
  set (b := between t0 t1 (stored_row (seq (disk s) + 1) a (clock e))) in *.
  repeat case_decide; simpl; try done; try (f_equal; lia); exfalso;
    repeat match goal with Hc : _ /\ _ |- _ => destruct Hc end;
    first [ lia | congruence
          | match goal with
            | Hc : ~ _ |- _ => apply Hc; split; congruence
            end ].
Qed.

Lemma LogActivity_counts_once_witness :
  let a := mkActivityLog 0 "s3" "r4" "checkout" "/cart/checkout" "POST" 302 "EUR" "" 0 in
  exists before after_,
    result (GetActivityStats (healthy 55) 0 59) stocked = Ret (Some before, None)
    /\ result (GetActivityStats (healthy 55) 0 59) (after (LogActivity (healthy 50) a) stocked)
       = Ret (Some after_, None)
    /\ forall ty,
        after_ !! ty =
          if decide (ty = ActivityType a
                     /\ between 0 59 (stored_row (seq (disk stocked) + 1) a
                                        (clock (healthy 50))) = true)
          then Some (default 0%Z (before !! ty) + 1)%Z
          else before !! ty.
Proof.
  intros a.
  apply (LogActivity_counts_once (healthy 50) (healthy 55) a 0 59 stocked
           {| dsn := dbPath; closed := false |}); reflexivity.
Defined.

(** X25: what a session query does guarantee. For every session
    identifier [S], positive limit [N] and store state with a handle,
    every record [GetActivitiesBySession] returns has session_id [S]
    and is a persisted row, there are at most [N], and they come in the
    order of their stored timestamp texts, greatest first; where those
    texts order the persisted rows as their instants do, that is most
    recent first. When nothing fails the call reports no error and the
    list holds as many of the session's records as the limit allows. *)
Theorem GetActivitiesBySession_page (e : Env) (S : string) (N : Z) (s : State) (h : DB) :
  (0 < N)%Z -> db s = Some h ->
  exists l err,
    result (GetActivitiesBySession e S N) s = Ret (l, err)
    /\ Forall (fun a => SessionID a = S) l
    /\ (Z.of_nat (length l) <= N)%Z
    /\ StronglySorted stored_desc l
    /\ (stamps_follow_instants (rows (disk s)) -> StronglySorted newest_first l)
    /\ Forall (fun a => a ∈ rows (disk s)) l
    /\ (closed h = false -> has_schema (disk s) = true ->
        fault e StepSelect = None -> cut e = None ->
        err = None
        /\ length l = Nat.min (Z.to_nat N)
                        (length (filter (fun a => SessionID a = S) (rows (disk s))))).
Proof.
  intros HN Hdb.
  destruct (GetActivitiesBySession_cases e S N s h Hdb) as (k & err & Hres & Hok).
  destruct (select_by_session_page S N (disk s)) as (Hsid & Hlen & Hsort & Hin & Hfull);
    [lia|].
  exists (take k (select_by_session S N (disk s))), err.
  split; [done|]. split; [by apply Forall_take|]. split.
  { rewrite length_take. lia. }
  split; [by apply StronglySorted_take|]. split.
  { intros Hag. apply (stored_desc_newest_first (rows (disk s))); [done| |].
    - intros a Ha. apply elem_of_take in Ha as (i & Ha & _).
      rewrite Forall_forall in Hin. apply Hin. by eapply list_elem_of_lookup_2.
    - by apply StronglySorted_take. }
  split; [by apply Forall_take|].
  intros Hc Hsch Hf Hcut. destruct (Hok Hc Hsch Hf Hcut) as [-> ->]. done.
Qed.

Lemma GetActivitiesBySession_page_witness :
  exists l err,
    result (GetActivitiesBySession (healthy 40) "s1" 5) stocked = Ret (l, err)
    /\ Forall (fun a => SessionID a = "s1") l
    /\ (Z.of_nat (length l) <= 5)%Z
    /\ StronglySorted stored_desc l
    /\ StronglySorted newest_first l
    /\ Forall (fun a => a ∈ rows (disk stocked)) l
    /\ err = None
    /\ length l = 2.
Proof.
  destruct (GetActivitiesBySession_page (healthy 40) "s1" 5 stocked
              {| dsn := dbPath; closed := false |})
    as (l & err & Hres & Hsid & Hlen & Hs & Hn & Hin & Hok).
  - lia.
  - reflexivity.
  - exists l, err.
    split; [exact Hres|]. split; [exact Hsid|]. split; [exact Hlen|].
    split; [exact Hs|]. split; [exact (Hn three_rows_follow)|]. split; [exact Hin|].
    apply Hok; reflexivity.
Defined.

(** X26: what the statistics do count. For every pair of timestamps
    and every store state, the mapping [GetActivityStats] returns
    without error gives each activity type the number of persisted
    records of that type whose stored timestamp text lies between the
    texts of the two bounds, ends included, and has no entry for a type
    without such a record. On an open handle with the schema present
    and no failure, such a mapping is returned. The store's rows are
    left as they were. *)
Theorem GetActivityStats_counts_stored (e : Env) (t0 t1 : Time) (s : State) :
  (forall stats,
      result (GetActivityStats e t0 t1) s = Ret (Some stats, None) ->
      forall ty,
        stats !! ty =
          if decide (count_stored t0 t1 ty (rows (disk s)) = 0%Z) then None
          else Some (count_stored t0 t1 ty (rows (disk s))))
  /\ (forall h,
        db s = Some h -> closed h = false -> has_schema (disk s) = true ->
        fault e StepSelect = None -> cut e = None ->
        result (GetActivityStats e t0 t1) s
          = Ret (Some (collect_stats (select_stats t0 t1 (disk s))), None))
  /\ rows (disk (after (GetActivityStats e t0 t1) s)) = rows (disk s).
Proof.
  split; [|split].
  - run_go. destruct (db s) as [h|]; simpl; [|done].
    destruct (closed h); simpl; [done|].
    destruct (fault e StepSelect) as [x|]; simpl; [done|].
    destruct (has_schema (disk s)); simpl; [|done].
    unfold iterate. destruct (cut e) as [[k x]|].
    + destruct (decide (k < length (select_stats t0 t1 (disk s)))); simpl; [done|].
      intros stats [= <-] ty. apply stats_lookup.
    + intros stats [= <-] ty. apply stats_lookup.
  - intros h Hdb Hc Hsch Hf Hcut. run_go. rewrite Hdb. simpl.
    rewrite Hc, Hf, Hsch. simpl. unfold iterate. by rewrite Hcut.
  - run_go. destruct (db s) as [h|]; simpl; [|done].
    destruct (closed h); simpl; [done|].
    destruct (fault e StepSelect) as [x|]; simpl; [done|].
    destruct (has_schema (disk s)); simpl; done.
Qed.

Lemma GetActivityStats_counts_stored_witness :
  result (GetActivityStats (healthy 40) 10 20) stocked
    = Ret (Some (collect_stats (select_stats 10 20 (disk stocked))), None)
  /\ collect_stats (select_stats 10 20 (disk stocked)) !! "page_view" = Some 2%Z
  /\ collect_stats (select_stats 10 20 (disk stocked)) !! "checkout" = None.
Proof.
  assert (Hret : result (GetActivityStats (healthy 40) 10 20) stocked
                 = Ret (Some (collect_stats (select_stats 10 20 (disk stocked))), None)).
  { apply (proj1 (proj2 (GetActivityStats_counts_stored (healthy 40) 10 20 stocked))
             {| dsn := dbPath; closed := false |}); reflexivity. }
  split; [exact Hret|].
  split.
  - exact (proj1 (GetActivityStats_counts_stored (healthy 40) 10 20 stocked)
             _ Hret "page_view").
  - exact (proj1 (GetActivityStats_counts_stored (healthy 40) 10 20 stocked)
             _ Hret "checkout").
Defined.

(** ** Repository: identities, failures and edge cases *)

Section Identities.
Variable json_Marshal : gmap string string -> string * option error.

(** An operation leaves rows and id sequence alone, or appends a row
    carrying the next id and advances the sequence by one. *)
Lemma perform_seq e op s :
  let d := disk s in
  let d' := disk (after (perform json_Marshal e op) s) in
  (rows d' = rows d /\ seq d' = seq d)
  \/ exists a, ID a = (seq d + 1)%Z /\ rows d' = rows d ++ [a]
               /\ seq d' = (seq d + 1)%Z.
Proof.
  destruct op; simpl.
  - left. run_go. destruct (once s); simpl; [done|].
    unfold schema; simpl. init_cases e.
  - by left.
  - left. run_go. by destruct (db s).
  - run_go. destruct (db s) as [c|]; simpl; [|by left].
    destruct (closed c); simpl; [by left|].
    destruct (fault e StepInsert); simpl; [by left|].
    destruct (has_schema (disk s)); simpl; [|by left].
    right. eexists. split; [|done]. done.
  - left. run_go. destruct (db s) as [c|]; simpl; [|done].
    destruct (closed c); simpl; [done|].
    destruct (fault e StepSelect); simpl; [done|].
    destruct (has_schema (disk s)); simpl; done.
  - left. run_go. destruct (db s) as [c|]; simpl; [|done].
    destruct (closed c); simpl; [done|].
    destruct (fault e StepSelect); simpl; [done|].
    destruct (has_schema (disk s)); simpl; done.
  - left. run_go. destruct (db s) as [c|]; simpl; [|done].
    destruct (closed c); simpl; [done|].
    destruct (fault e StepSelect); simpl; [done|].
    destruct (has_schema (disk s)); simpl; done.
  - unfold ServeHTTP. run_go.
    destruct (http.ctx_session_id r); simpl; [|by left].
    destruct (http.ctx_request_id r); simpl; [|by left].
    destruct (db s) as [h|]; simpl; [|by left].
    destruct (closed h); simpl; [by left|].
    destruct (fault e StepInsert); simpl; [by left|].
    destruct (has_schema (disk s)); simpl; [|by left].
    right. eexists. split; [|done]. done.
Qed.

Lemma perform_ids e op s :
  ids_ascending (disk s) -> ids_ascending (disk (after (perform json_Marshal e op) s)).
Proof.
  intros (Hs & Hb & H0). unfold ids_ascending.
  destruct (perform_seq e op s) as [[-> ->] | (a & Ha & -> & ->)]; [done|].
  split; [|split; [|lia]].
  - apply StronglySorted_app_2; [|done|repeat constructor].
    intros x y Hx Hy. apply list_elem_of_singleton in Hy as ->.
    rewrite Forall_forall in Hb. specialize (Hb x Hx). simpl in Hb. lia.
  - apply Forall_app. split.
    + eapply Forall_impl; [exact Hb|]. intros x Hx. simpl in Hx. lia.
    + constructor; [lia|constructor].
Qed.

Lemma history_ids ops s :
  ids_ascending (disk s) -> ids_ascending (disk (history json_Marshal ops s)).
Proof.
  revert s. induction ops as [|[e op] ops IH]; intros s Hs; simpl; [done|].
  by apply IH, perform_ids.
Qed.

Lemma ascending_ids_distinct (l : list ActivityLog) :
  StronglySorted (fun a b => (ID a < ID b)%Z) l -> NoDup (ID <$> l).
Proof.
  induction 1 as [|a l Hs IH Ha]; simpl; [constructor|].
  apply NoDup_cons. split; [|done].
  intros Hin. apply list_elem_of_fmap in Hin as (b & Hab & Hb).
  rewrite Forall_forall in Ha. specialize (Ha b Hb). lia.
Qed.

(** X10: record ids are never reused. Starting from a table whose ids
    are positive, ascending in insertion order and not above the id
    sequence (an empty table, for one), every history of operations, in
    any environments, leaves a table with the same property; so no two
    persisted records ever share an id, and each new record gets an id
    greater than all ids handed out before. *)
Theorem ids_stay_unique (ops : list (Env * Op)) (s : State) :
  ids_ascending (disk s) ->
  ids_ascending (disk (history json_Marshal ops s))
  /\ NoDup (ID <$> rows (disk (history json_Marshal ops s)))
  /\ (forall e a h,
        db s = Some h -> closed h = false -> has_schema (disk s) = true ->
        fault e StepInsert = None ->
        Forall (fun b => (ID b < seq (disk s) + 1)%Z) (rows (disk s))
        /\ rows (disk (after (LogActivity e a) s))
           = rows (disk s) ++ [stored_row (seq (disk s) + 1) a (clock e)]).
Proof.
  intros Hs. pose proof (history_ids ops s Hs) as Hh.
  split; [done|]. split; [apply ascending_ids_distinct, Hh|].
  intros e a h Hdb Hc Hsch Hf. split.
  - destruct Hs as (_ & Hb & _). eapply Forall_impl; [exact Hb|].
    intros b Hb'. simpl in Hb'. lia.
  - by destruct (LogActivity_ok e a s h Hdb Hc Hsch Hf) as (_ & _ & _ & ? & _).
Qed.
End Identities.

Lemma ids_stay_unique_witness :
  let a := mkActivityLog 7 "s1" "r1" "page_view" "/" "GET" 200 "USD" "" 0 in
  let ops := [(healthy 41, CallLogActivity a);
              (healthy 42, CallGetActivityStats 0 50);
              (healthy 43, CallLogActivity a);
              (healthy 44, CallServeHTTP (NewActivityMiddleware twice_WriteHeader)
                             fresh_conn (sample_request "POST" "/cart" "/cart"))] in
  NoDup (ID <$> rows (disk (history marshal_empty ops stocked))).
Proof.
  intros a ops.
  apply (ids_stay_unique marshal_empty ops stocked).
  unfold ids_ascending, three_rows. simpl.
  split; [|split; [|lia]].
  - repeat (constructor; simpl; try lia).
  - repeat (constructor; simpl; try lia).
Defined.

(** X11: on a nil handle every repository function panics with a nil
    dereference before anything reaches the driver, and leaves the
    state as it was. This is the situation of a process that never
    called [InitDB]. *)
Theorem nil_handle_panics
    (e : Env) (a : ActivityLog) (S : string) (N : Z) (t0 t1 : Time) (s : State) :
  db s = None ->
  LogActivity e a s = (Panic NilDereference, s)
  /\ GetActivitiesBySession e S N s = (Panic NilDereference, s)
  /\ GetRecentActivities e N s = (Panic NilDereference, s)
  /\ GetActivityStats e t0 t1 s = (Panic NilDereference, s).
Proof.
  intros Hdb. repeat split; run_go; by rewrite Hdb.
Qed.

Lemma nil_handle_panics_witness :
  LogActivity (healthy 1) (mkActivityLog 0 "s1" "r1" "page_view" "/" "GET" 200 "USD" "" 0)
    (boot blank_disk) = (Panic NilDereference, boot blank_disk)
  /\ GetActivitiesBySession (healthy 1) "s1" 10 (boot blank_disk)
     = (Panic NilDereference, boot blank_disk)
  /\ GetRecentActivities (healthy 1) 10 (boot blank_disk)
     = (Panic NilDereference, boot blank_disk)
  /\ GetActivityStats (healthy 1) 0 50 (boot blank_disk)
     = (Panic NilDereference, boot blank_disk).
Proof.
  apply (nil_handle_panics (healthy 1) _ "s1" 10 0 50 (boot blank_disk)).
  reflexivity.
Defined.

(** X12: a first [InitDB] that fails at the journal-mode pragma, on a
    database file without the table, leaves a handle that is open but
    has no table behind it. From then on, although the driver itself
    works, [LogActivity] returns the missing-table error and stores
    nothing, and the three queries return that error with no data;
    none of them panics. *)
Theorem half_initialized_store_reports_errors
    (e e' : Env) (s : State) (x : error)
    (a : ActivityLog) (S : string) (N : Z) (t0 t1 : Time) :
  once s = false -> has_schema (disk s) = false ->
  first_fault e = Some (StepPragma, x) ->
  fault e' StepInsert = None -> fault e' StepSelect = None ->
  let s1 := after (InitDB e) s in
  result (LogActivity e' a) s1 = Ret (Some ErrNoSuchTable)
  /\ rows (disk (after (LogActivity e' a) s1)) = rows (disk s)
  /\ result (GetActivitiesBySession e' S N) s1 = Ret ([], Some ErrNoSuchTable)
  /\ result (GetRecentActivities e' N) s1 = Ret ([], Some ErrNoSuchTable)
  /\ result (GetActivityStats e' t0 t1) s1 = Ret (None, Some ErrNoSuchTable).
Proof.
  intros Hd Hsch Hf Hins Hsel s1.
  pose proof (InitDB_first_handle e s Hd) as Hdb1. rewrite Hf in Hdb1.
  destruct (InitDB_first_failure e s StepPragma x Hd Hf) as (_ & Hrows1 & _).
  pose proof (InitDB_first_table e s StepPragma x Hd Hf) as Hsch1. simpl in Hsch1.
  fold s1 in Hdb1, Hsch1, Hrows1. rewrite Hsch in Hsch1.
  repeat split; run_go; rewrite Hdb1; simpl;
    rewrite ?Hins, ?Hsel; simpl; rewrite Hsch1; simpl; done.
Qed.

Lemma half_initialized_store_reports_errors_witness :
  let e := failing_at 0 (only StepPragma) (EnvError "database is locked") in
  let s1 := after (InitDB e) (boot blank_disk) in
  let a := mkActivityLog 0 "s1" "r1" "page_view" "/" "GET" 200 "USD" "" 0 in
  result (LogActivity (healthy 1) a) s1 = Ret (Some ErrNoSuchTable)
  /\ rows (disk (after (LogActivity (healthy 1) a) s1)) = rows (disk (boot blank_disk))
  /\ result (GetActivitiesBySession (healthy 1) "s1" 10) s1 = Ret ([], Some ErrNoSuchTable)
  /\ result (GetRecentActivities (healthy 1) 10) s1 = Ret ([], Some ErrNoSuchTable)
  /\ result (GetActivityStats (healthy 1) 0 50) s1 = Ret (None, Some ErrNoSuchTable).
Proof.
  intros e s1 a.
  apply (half_initialized_store_reports_errors e (healthy 1) (boot blank_disk)
           (EnvError "database is locked") a "s1" 10 0 50);
    reflexivity.
Defined.

(** X13: a window whose end is, as timestamp text, smaller than its
    start matches nothing: [GetActivityStats] then returns the empty
    mapping and no error, whatever the store holds. *)
Theorem GetActivityStats_inverted_window
    (e : Env) (t0 t1 : Time) (s : State) (h : DB) :
  String.ltb (stamp t1) (stamp t0) = true ->
  db s = Some h -> closed h = false -> has_schema (disk s) = true ->
  fault e StepSelect = None -> cut e = None ->
  result (GetActivityStats e t0 t1) s = Ret (Some ∅, None).
Proof.
  intros Hinv Hdb Hc Hsch Hf Hcut. unfold result.
  rewrite (GetActivityStats_ok e t0 t1 s h) by done. simpl.
  do 3 f_equal. apply map_eq. intros ty.
  rewrite stats_lookup, lookup_empty.
  rewrite decide_True; [done|].
  unfold count_stored.
  assert (Hnone : filter (fun a => ActivityType a = ty /\ between t0 t1 a = true)
                    (rows (disk s)) = []).
  { induction (rows (disk s)) as [|a l IH]; [done|].
    rewrite filter_cons_False; [done|]. intros [_ Hb].
    unfold between in Hb. apply andb_true_iff in Hb as [H0 H1].
    pose proof (string_leb_trans _ _ _ H0 H1) as H01.
    unfold String.ltb in Hinv. unfold String.leb in H01.
    rewrite (String.compare_antisym (stamp t1)) in Hinv.
    by destruct (String.compare (stamp t0) (stamp t1)). }
  by rewrite Hnone.
Qed.

Lemma GetActivityStats_inverted_window_witness :
  result (GetActivityStats (healthy 55) 30 10) stocked = Ret (Some ∅, None).
Proof.
  apply (GetActivityStats_inverted_window (healthy 55) 30 10 stocked
           {| dsn := dbPath; closed := false |}); try reflexivity.
Defined.

(** ** Middleware: what is recorded, and when a request is lost *)

(** A request classified as a product view has a matched route. *)
Lemma product_view_routed r :
  getActivityType r = "product_view" -> is_Some (http.CurrentRoute r).
Proof.
  unfold getActivityType. destruct (http.CurrentRoute r); [by eauto|done].
Qed.

(** X14: which activities carry details. The map the middleware builds
    is non-empty exactly for the types add_to_cart, product_view and
    currency_change; it then holds product_id and quantity, product_id,
    or new_currency respectively, each key present even when the form
    field or path variable is absent (its value is then the empty
    string). For every other type nothing is marshalled. *)
Theorem details_of_classified (r : http.Request) :
  let ty := getActivityType r in
  (ty = "add_to_cart" \/ ty = "product_view" \/ ty = "currency_change"
   <-> details_of ty r <> ∅)
  /\ (ty = "add_to_cart" ->
      details_of ty r = {[ "product_id" := http.FormValue r "product_id";
                           "quantity" := http.FormValue r "quantity" ]})
  /\ (ty = "product_view" ->
      details_of ty r = {[ "product_id" := default "" (http.Vars r !! "id") ]})
  /\ (ty = "currency_change" ->
      details_of ty r = {[ "new_currency" := http.FormValue r "currency_code" ]}).
Proof.
  intros ty. pose proof (getActivityType_enumerated r) as Hty.
  pose proof (product_view_routed r) as Hroute. fold ty in Hty, Hroute.
  assert (Hcart : details_of "add_to_cart" r
                  = {[ "product_id" := http.FormValue r "product_id";
                       "quantity" := http.FormValue r "quantity" ]}).
  { unfold details_of. simpl. apply insert_insert_ne. discriminate. }
  clearbody ty. unfold Spec.activity_types in Hty.
  repeat (apply elem_of_cons in Hty as [-> | Hty]);
    try (by apply elem_of_nil in Hty).
  - (* page_view *)
    split; [|done]. split; [by intros [?|[?|?]]|done].
  - (* add_to_cart *)
    split; [|done]. split; [intros _|by auto].
    rewrite Hcart. apply insert_non_empty.
  - (* empty_cart *)
    split; [|done]. split; [by intros [?|[?|?]]|done].
  - (* checkout *)
    split; [|done]. split; [by intros [?|[?|?]]|done].
  - (* currency_change *)
    split; [|done]. split; [intros _; apply insert_non_empty|by auto].
  - (* product_view *)
    destruct Hroute as [route Hr]; [done|].
    unfold details_of. simpl. rewrite Hr.
    split; [|done]. split; [intros _; apply insert_non_empty|by auto].
  - (* other *)
    split; [|done]. split; [by intros [?|[?|?]]|done].
  - (* unknown *)
    split; [|done]. split; [by intros [?|[?|?]]|done].
Qed.

Lemma details_of_classified_witness :
  let r := http.mkRequest "POST" "/cart" (Some (mux.mkRoute (Some "/cart"))) ∅
             (Some "session-1") (Some "request-1") None
             (fun k => if String.eqb k "product_id" then "SKU123" else "") in
  details_of (getActivityType r) r
    = {[ "product_id" := "SKU123"; "quantity" := "" ]}.
Proof.
  intros r.
  apply (proj1 (proj2 (details_of_classified r))).
  reflexivity.
Defined.

Section MiddlewareRecords.
Variable json_Marshal : gmap string string -> string * option error.
Context {W : Type} `{http.ResponseWriter W}.

(** X15: what the middleware persists for a request. With both context
    values present, an open handle, the schema in place and a working
    INSERT, [ServeHTTP] returns the caller's writer as the handler left
    it, sends exactly one INSERT, logs nothing, and appends exactly one
    row: the next id, the session and request ids of the context, the
    classified type, the literal URL path and method, the status the
    recorder holds, the currency cookie or "USD" without one, the
    marshalled details (empty when there are none or marshalling
    fails), and the insert time. *)
Theorem ServeHTTP_records_request
    (m : ActivityMiddleware) (e : Env) (w0 : W) (r : http.Request) (s : State)
    (sid rid : string) (h : DB) :
  http.ctx_session_id r = Some sid -> http.ctx_request_id r = Some rid ->
  db s = Some h -> closed h = false -> has_schema (disk s) = true ->
  fault e StepInsert = None ->
  let s' := after (ServeHTTP json_Marshal m e w0 r) s in
  let row :=
    {| ID := seq (disk s) + 1; SessionID := sid; RequestID := rid;
       ActivityType := getActivityType r; Path := http.URL_Path r;
       Method := http.Method r;
       StatusCode := status (http.serve (next m r) (mkRecorder w0 0%Z));
       UserCurrency := default "USD" (http.cookie_currency r);
       Details := details_text json_Marshal r; CreatedAt := clock e |} in
  result (ServeHTTP json_Marshal m e w0 r) s = Ret (http.serve (next m r) w0)
  /\ rows (disk s') = rows (disk s) ++ [row]
  /\ issued s' = issued s ++ [insert_of row (clock e)]
  /\ logged s' = logged s.
Proof.
  intros Hs Hr Hdb Hc Hsch Hf s' row.
  split.
  { rewrite ServeHTTP_result, Hs, Hr, Hdb. by rewrite recorder_passes_through. }
  unfold s', row, details_text, ServeHTTP. run_go.
  rewrite Hs, Hr. simpl. rewrite Hdb. simpl. rewrite Hc, Hf, Hsch. simpl.
  assert (Hcur : currentCurrency r = default "USD" (http.cookie_currency r)).
  { unfold currentCurrency. by destruct (http.cookie_currency r). }
  rewrite Hcur.
  destruct (decide (0 < size (details_of (getActivityType r) r))) as [Hn|Hn];
    destruct (decide (details_of (getActivityType r) r = ∅)) as [He|He].
  - rewrite He, map_size_empty in Hn. lia.
  - destruct (json_Marshal (details_of (getActivityType r) r)) as [js [err|]];
      simpl; done.
  - simpl. done.
  - exfalso. apply He. apply map_size_empty_iff. lia.
Qed.
End MiddlewareRecords.

Lemma ServeHTTP_records_request_witness :
  let m := NewActivityMiddleware twice_WriteHeader in
  let r := sample_request "GET" "/product/OLJCESPC7Z" "/product/{id}" in
  rows (disk (after (ServeHTTP marshal_empty m (healthy 50) fresh_conn r) stocked))
  = three_rows ++
    [mkActivityLog 4 "session-1" "request-1" "product_view" "/product/OLJCESPC7Z"
       "GET" 500 "USD" "{}" 50].
Proof.
  intros m r.
  apply (proj1 (proj2 (ServeHTTP_records_request marshal_empty m (healthy 50)
                         fresh_conn r stocked "session-1" "request-1"
                         {| dsn := dbPath; closed := false |}
                         eq_refl eq_refl eq_refl eq_refl eq_refl eq_refl))).
Defined.

Section MiddlewareLosses.
Variable json_Marshal : gmap string string -> string * option error.
Context {W : Type} `{http.ResponseWriter W}.

(** X16: a request without a session id or without a request id among
    its context values makes [ServeHTTP] panic on the type assertion;
    nothing is sent to the store and nothing is logged: the state is
    the one before the call. *)
Theorem ServeHTTP_requires_context_values
    (m : ActivityMiddleware) (e : Env) (w0 : W) (r : http.Request) (s : State) :
  http.ctx_session_id r = None \/ http.ctx_request_id r = None ->
  ServeHTTP json_Marshal m e w0 r s = (Panic TypeAssertion, s).
Proof.
  intros Hctx. unfold ServeHTTP. run_go.
  destruct (http.ctx_session_id r); simpl; [|done].
  destruct Hctx as [Hctx | ->]; [done|]. done.
Qed.

(** X17: the middleware needs an opened store. In a process whose
    first [InitDB] failed at directory creation (where [InitDB]
    returned that error), every request that carries its context values
    makes [ServeHTTP] panic with a nil dereference, in every
    environment; the same holds when [InitDB] was never called. Nothing
    is stored or logged for it. *)
Theorem ServeHTTP_needs_opened_store
    (m : ActivityMiddleware) (e0 e : Env) (w0 : W) (r : http.Request) (d : Disk)
    (sid rid : string) (x : error) :
  http.ctx_session_id r = Some sid -> http.ctx_request_id r = Some rid ->
  first_fault e0 = Some (StepMkdir, x) ->
  let s1 := after (InitDB e0) (boot d) in
  result (InitDB e0) (boot d) = Ret (Some x)
  /\ ServeHTTP json_Marshal m e w0 r s1 = (Panic NilDereference, s1)
  /\ ServeHTTP json_Marshal m e w0 r (boot d) = (Panic NilDereference, boot d).
Proof.
  intros Hs Hr Hf s1.
  assert (Hnil : forall s, db s = None ->
            ServeHTTP json_Marshal m e w0 r s = (Panic NilDereference, s)).
  { intros s Hdb. unfold ServeHTTP. run_go. rewrite Hs, Hr. simpl.
    by rewrite Hdb. }
  split; [|split].
  - rewrite InitDB_first_result by done. by rewrite Hf.
  - apply Hnil. unfold s1. rewrite InitDB_first_handle by done. by rewrite Hf.
  - by apply Hnil.
Qed.
End MiddlewareLosses.

Lemma ServeHTTP_requires_context_values_witness :
  let r := http.mkRequest "GET" "/" (Some (mux.mkRoute (Some "/"))) ∅
             (Some "session-1") None None (fun _ => "") in
  ServeHTTP marshal_empty (NewActivityMiddleware twice_WriteHeader) (healthy 50)
    fresh_conn r stocked = (Panic TypeAssertion, stocked).
Proof.
  intros r.
  apply (ServeHTTP_requires_context_values marshal_empty). right. reflexivity.
Defined.

Lemma ServeHTTP_needs_opened_store_witness :
  let e0 := failing_at 0 (only StepMkdir) (EnvError "permission denied") in
  let s1 := after (InitDB e0) (boot blank_disk) in
  let m := NewActivityMiddleware twice_WriteHeader in
  let r := sample_request "GET" "/" "/" in
  result (InitDB e0) (boot blank_disk) = Ret (Some (EnvError "permission denied"))
  /\ ServeHTTP marshal_empty m (healthy 50) fresh_conn r s1 = (Panic NilDereference, s1)
  /\ ServeHTTP marshal_empty m (healthy 50) fresh_conn r (boot blank_disk)
     = (Panic NilDereference, boot blank_disk).
Proof.
  intros e0 s1 m r.
  apply (ServeHTTP_needs_opened_store marshal_empty m e0 (healthy 50) fresh_conn r
           blank_disk "session-1" "request-1" (EnvError "permission denied"));
    reflexivity.
Defined.

(** ** Response recorder: the usual handlers *)

Lemma last_status_uniform cs x :
  Forall (fun c => is_WroteHeader c = true -> c = http.WroteHeader x) cs ->
  Exists (fun c => is_WroteHeader c = true) cs ->
  last_status cs = Some x.
Proof.
  induction 1 as [|c cs Hc Hcs IH]; intros Hex; [by apply Exists_nil in Hex|].
  apply Exists_cons in Hex. simpl.
  destruct c as [k v|y|b]; simpl in *.
  - destruct Hex as [?|Hex]; [done|]. by apply IH.
  - specialize (Hc eq_refl). injection Hc as ->.
    destruct (last_status cs) as [z|] eqn:E; [|done].
    destruct (decide (Exists (fun c => is_WroteHeader c = true) cs)) as [Hex'|Hex'].
    + by apply IH.
    + exfalso. apply Hex'. clear -E.
      induction cs as [|c cs IH]; [done|]. simpl in E.
      destruct c; simpl; try (apply Exists_cons_tl, IH; done).
      by apply Exists_cons_hd.
  - destruct Hex as [?|Hex]; [done|]. by apply IH.
Qed.

(** X18: a handler that settles on one status. When the handler calls
    WriteHeader at least once and always with the same non-zero code
    (once, in the usual case), that code is what the recorder holds at
    the end, wherever body writes and header changes fall between. *)
Theorem single_status_is_recorded (h : http.Handling) (c : http.Conn) (x : Z) :
  x <> 0%Z ->
  Forall (fun k => is_WroteHeader k = true -> k = http.WroteHeader x)
    (calls_of h (http.link c)) ->
  Exists (fun k => is_WroteHeader k = true) (calls_of h (http.link c)) ->
  status (http.serve h (mkRecorder c 0)) = x.
Proof.
  intros Hx Hall Hex. rewrite recorder_status.
  apply note_last; [|done]. by apply last_status_uniform.
Qed.

Lemma single_status_is_recorded_witness :
  let h := http.SetHeader "Content-Type" "text/html"
             (http.CallWrite [Byte.x3c] (fun _ =>
                http.CallWriteHeader 404 (http.CallWrite [Byte.x3e] (fun _ => http.Finish)))) in
  status (http.serve h (mkRecorder fresh_conn 0)) = 404%Z.
Proof.
  intros h.
  apply (single_status_is_recorded h fresh_conn 404).
  - lia.
  - repeat constructor; simpl; intros; congruence.
  - simpl. do 2 apply Exists_cons_tl. apply Exists_cons_hd. reflexivity.
Defined.

(** X19: a handler that writes nothing. When the handler finishes
    without any WriteHeader and without any Write (header changes
    only, or nothing at all), the recorder still holds 0: that is the
    status code the middleware stores for the request. *)
Theorem silent_handler_is_recorded_as_zero (h : http.Handling) (c : http.Conn) :
  Forall (fun k => is_WroteHeader k = false /\ is_Wrote k = false)
    (calls_of h (http.link c)) ->
  status (http.serve h (mkRecorder c 0)) = 0%Z
  /\ http.sent (w (http.serve h (mkRecorder c 0)))
     = http.sent c ++ calls_of h (http.link c).
Proof.
  intros Hq. split.
  - rewrite recorder_status, note_write_only.
    + assert (Hw : existsb is_Wrote (calls_of h (http.link c)) = false).
      { induction Hq as [|k cs [_ Hk] _ IH]; [done|]. simpl. by rewrite Hk. }
      by rewrite Hw.
    + eapply Forall_impl; [exact Hq|]. by intros k [? _].
  - rewrite recorder_passes_through. apply serve_conn_sent.
Qed.

Lemma silent_handler_is_recorded_as_zero_witness :
  let h := http.SetHeader "Location" "/" http.Finish in
  status (http.serve h (mkRecorder fresh_conn 0)) = 0%Z
  /\ http.sent (w (http.serve h (mkRecorder fresh_conn 0)))
     = [http.HeaderSet "Location" "/"].
Proof.
  intros h.
  apply (silent_handler_is_recorded_as_zero h fresh_conn).
  repeat constructor.
Defined.

(** ** Query API *)

Section QueryAPIProperties.
Variable strconv_Atoi : string -> Z * option error.
Variable time_Add : Time -> Z -> Time.
Variable time_Parse : string -> Time * option error.
Variable sessionID : http.Request -> string.
Variable encode_activities : list ActivityLog -> option (list Byte.byte).
Variable encode_stats : option (gmap string Z) -> option (list Byte.byte).
Context {W : Type} `{http.ResponseWriter W}.
Variable renderHTTPError : http.Request -> W -> string -> error -> Z -> M W.

(** The limit a list handler uses is the parsed parameter when that is
    a positive number, and the default in every other case. *)
Lemma limit_param_cases dflt v :
  (0 < dflt)%Z ->
  (0 < limit_param strconv_Atoi dflt v)%Z
  /\ (limit_param strconv_Atoi dflt v = dflt
      \/ (v <> "" /\ strconv_Atoi v = (limit_param strconv_Atoi dflt v, None)))
  /\ (v = "" \/ (strconv_Atoi v).2 <> None \/ ((strconv_Atoi v).1 <= 0)%Z ->
      limit_param strconv_Atoi dflt v = dflt).
Proof.
  intros Hd. unfold limit_param.
  destruct (decide (v = "")) as [->|Hv]; [by auto|].
  destruct (strconv_Atoi v) as [l [x|]] eqn:E; simpl; [by auto|].
  destruct (0 <? l)%Z eqn:El.
  - apply Z.ltb_lt in El. split; [done|]. split; [by auto|].
    intros [?|[?|?]]; [done|done|lia].
  - by auto.
Qed.

(** X20: the recent-activities endpoint. With a logger in the context
    and a working store, [listActivitiesHandler] answers with the JSON
    content type and the encoding of a list of persisted records, in
    the order of their stored timestamp texts, greatest first; where
    those texts order the persisted records as their instants do, that
    is most recent first. The list is never longer than the limit in
    use, which is always positive: the limit parameter when it parses
    to a positive number, and 100 when it is absent, does not parse, or
    is zero or negative; so no request can ask the store for an
    unbounded listing. *)
Theorem listActivitiesHandler_responds
    (e : Env) (w0 : W) (r : api.Request) (s : State) (h : DB) :
  api.ctx_log r = true ->
  db s = Some h -> closed h = false -> has_schema (disk s) = true ->
  fault e StepSelect = None -> cut e = None ->
  let v := api.Query_Get r "limit" in
  let limit := limit_param strconv_Atoi 100 v in
  (0 < limit)%Z
  /\ (v = "" \/ (strconv_Atoi v).2 <> None \/ ((strconv_Atoi v).1 <= 0)%Z ->
      limit = 100%Z)
  /\ (forall l, (0 < l)%Z -> v <> "" -> strconv_Atoi v = (l, None) -> limit = l)
  /\ exists l,
      result (listActivitiesHandler strconv_Atoi encode_activities renderHTTPError
                e w0 r) s
        = Ret (respond_json (encode_activities l) w0)
      /\ length l = Nat.min (Z.to_nat limit) (length (rows (disk s)))
      /\ StronglySorted stored_desc l
      /\ (stamps_follow_instants (rows (disk s)) -> StronglySorted newest_first l)
      /\ Forall (fun a => a ∈ rows (disk s)) l.
Proof.
  intros Hlog Hdb Hc Hsch Hf Hcut v limit.
  destruct (limit_param_cases 100 v) as (Hpos & Hcase & Hdflt); [lia|].
  fold limit in Hpos, Hcase, Hdflt.
  split; [done|]. split; [done|]. split.
  { intros l Hl Hv El. unfold limit, limit_param.
    rewrite decide_False by done. rewrite El.
    destruct (0 <? l)%Z eqn:E; [done|]. apply Z.ltb_ge in E. lia. }
  exists (select_recent limit (disk s)).
  destruct (select_recent_page limit (disk s)) as (_ & Hsort & Hin & Hlen); [lia|].
  split; [|split; [done|split; [done|split; [|done]]]].
  2:{ intros Hag. apply (stored_desc_newest_first (rows (disk s))); [done| |done].
      intros a Ha. rewrite Forall_forall in Hin. by apply Hin. }
  unfold listActivitiesHandler, assert_logger. rewrite Hlog.
  unfold result, mbind, M_bind at 1. simpl. fold v. fold limit.
  unfold mbind, M_bind. rewrite (GetRecentActivities_ok e limit s h) by done.
  done.
Qed.

End QueryAPIProperties.

Section QueryAPIFailures.
Variable strconv_Atoi : string -> Z * option error.
Variable time_Add : Time -> Z -> Time.
Variable time_Parse : string -> Time * option error.
Variable sessionID : http.Request -> string.
Variable encode_activities : list ActivityLog -> option (list Byte.byte).
Variable encode_stats : option (gmap string Z) -> option (list Byte.byte).
Context {W : Type} `{http.ResponseWriter W}.
Variable renderHTTPError : http.Request -> W -> string -> error -> Z -> M W.

Lemma time_param_cases dflt v :
  (v = "" \/ (time_Parse v).2 <> None -> time_param time_Parse dflt v = dflt)
  /\ (forall t, v <> "" -> time_Parse v = (t, None) -> time_param time_Parse dflt v = t).
Proof.
  unfold time_param. destruct (decide (v = "")) as [->|Hv]; [done|].
  destruct (time_Parse v) as [t [x|]]; simpl.
  - split; [done|]. intros t' _ [=].
  - split; [intros [?|?]; done|]. by intros t' _ [= ->].
Qed.

(** X22: the statistics endpoint and its window. With a logger in the
    context and a working store, [activityStatsHandler] answers with
    the encoding of a mapping that gives each type the number of
    records whose stored timestamp text lies between the texts of the
    window's bounds, and has no entry for a type without one; where,
    for every persisted record, lying between the bounds as text is
    the same as being created between them, these are the records
    created within the window. The window starts 24 hours before the
    time of the call and ends at that time; a start or end parameter
    replaces its bound only when it is present and parses, and is
    silently ignored otherwise. *)
Theorem activityStatsHandler_window
    (e : Env) (w0 : W) (r : api.Request) (s : State) (h : DB) :
  api.ctx_log r = true ->
  db s = Some h -> closed h = false -> has_schema (disk s) = true ->
  fault e StepSelect = None -> cut e = None ->
  let vs := api.Query_Get r "start" in
  let ve := api.Query_Get r "end" in
  let t0 := time_param time_Parse (time_Add (clock e) (-24 * Hour)) vs in
  let t1 := time_param time_Parse (clock e) ve in
  (vs = "" \/ (time_Parse vs).2 <> None -> t0 = time_Add (clock e) (-24 * Hour))
  /\ (ve = "" \/ (time_Parse ve).2 <> None -> t1 = clock e)
  /\ (forall t, vs <> "" -> time_Parse vs = (t, None) -> t0 = t)
  /\ (forall t, ve <> "" -> time_Parse ve = (t, None) -> t1 = t)
  /\ exists stats,
      result (activityStatsHandler time_Add time_Parse encode_stats renderHTTPError
                e w0 r) s
        = Ret (respond_json (encode_stats (Some stats)) w0)
      /\ (forall ty,
            stats !! ty =
              if decide (count_stored t0 t1 ty (rows (disk s)) = 0%Z) then None
              else Some (count_stored t0 t1 ty (rows (disk s))))
      /\ (Forall (fun a => between t0 t1 a = true
                           <-> (instant t0 <= instant (CreatedAt a) <= instant t1)%Z)
             (rows (disk s)) ->
          forall ty,
            stats !! ty =
              if decide (Spec.count_in_window t0 t1 ty (rows (disk s)) = 0%Z) then None
              else Some (Spec.count_in_window t0 t1 ty (rows (disk s)))).
Proof.
  intros Hlog Hdb Hc Hsch Hf Hcut vs ve t0 t1.
  destruct (time_param_cases (time_Add (clock e) (-24 * Hour)) vs) as [Hs0 Hs1].
  destruct (time_param_cases (clock e) ve) as [He0 He1].
  do 4 (split; [done|]).
  exists (collect_stats (select_stats t0 t1 (disk s))).
  split; [|split; [intros ty; apply stats_lookup|]].
  - unfold activityStatsHandler, assert_logger. rewrite Hlog.
    unfold result, mbind, M_bind at 1. simpl.
    fold vs ve. fold t0 t1.
    unfold mbind, M_bind. rewrite (GetActivityStats_ok e t0 t1 s h) by done.
    done.
  - intros Hag ty. rewrite stats_lookup. by rewrite count_stored_in_window.
Qed.

(** X23: rows that were read before a failure are never served. When
    the store works but reading the result set breaks off with an
    error after [k] rows, the repository function returns those [k]
    rows together with the error, and the handler hands the error to
    [renderHTTPError] with status 500 on the writer as it received it:
    no content type is set and none of the rows is encoded. *)
Theorem handlers_discard_partial_reads
    (e : Env) (w0 : W) (r : api.Request) (s : State) (h : DB) (k : nat) (x : error) :
  api.ctx_log r = true ->
  db s = Some h -> closed h = false -> has_schema (disk s) = true ->
  fault e StepSelect = None -> cut e = Some (k, x) ->
  let n100 := limit_param strconv_Atoi 100 (api.Query_Get r "limit") in
  let n50 := limit_param strconv_Atoi 50 (api.Query_Get r "limit") in
  let sid := sessionID (api.base r) in
  let t0 := time_param time_Parse (time_Add (clock e) (-24 * Hour))
              (api.Query_Get r "start") in
  let t1 := time_param time_Parse (clock e) (api.Query_Get r "end") in
  (k < length (select_recent n100 (disk s)) ->
   result (GetRecentActivities e n100) s
     = Ret (take k (select_recent n100 (disk s)), Some x)
   /\ listActivitiesHandler strconv_Atoi encode_activities renderHTTPError e w0 r s
      = renderHTTPError (api.base r) w0 "failed to get activities" x 500
          (add_issued (SelectRecent n100) s))
  /\ (k < length (select_by_session sid n50 (disk s)) ->
      result (GetActivitiesBySession e sid n50) s
        = Ret (take k (select_by_session sid n50 (disk s)), Some x)
      /\ sessionActivitiesHandler strconv_Atoi sessionID encode_activities
           renderHTTPError e w0 r s
         = renderHTTPError (api.base r) w0 "failed to get session activities" x 500
             (add_issued (SelectBySession sid n50) s))
  /\ (k < length (select_stats t0 t1 (disk s)) ->
      result (GetActivityStats e t0 t1) s
        = Ret (Some (collect_stats (take k (select_stats t0 t1 (disk s)))), Some x)
      /\ activityStatsHandler time_Add time_Parse encode_stats renderHTTPError e w0 r s
         = renderHTTPError (api.base r) w0 "failed to get activity stats" x 500
             (add_issued (SelectStats t0 t1) s)).
Proof.
  intros Hlog Hdb Hc Hsch Hf Hcut n100 n50 sid t0 t1.
  assert (Hs : set_disk (disk s) s = s) by by destruct s.
  split; [|split]; intros Hk.
  - split.
    + run_go. rewrite Hdb. simpl. rewrite Hc, Hf, Hsch. simpl.
      unfold iterate. rewrite Hcut. by rewrite decide_True.
    + unfold listActivitiesHandler, assert_logger. rewrite Hlog. run_go.
      fold n100. rewrite Hdb. simpl. rewrite Hc, Hf, Hsch. simpl.
      unfold iterate. rewrite Hcut. rewrite decide_True by done. simpl.
      by destruct s.
  - split.
    + run_go. rewrite Hdb. simpl. rewrite Hc, Hf, Hsch. simpl.
      unfold iterate. rewrite Hcut. by rewrite decide_True.
    + unfold sessionActivitiesHandler, assert_logger. rewrite Hlog. run_go.
      fold sid n50. rewrite Hdb. simpl. rewrite Hc, Hf, Hsch. simpl.
      unfold iterate. rewrite Hcut. rewrite decide_True by done. simpl.
      by destruct s.
  - split.
    + run_go. rewrite Hdb. simpl. rewrite Hc, Hf, Hsch. simpl.
      unfold iterate. rewrite Hcut. by rewrite decide_True.
    + unfold activityStatsHandler, assert_logger. rewrite Hlog. run_go.
      fold t0 t1. rewrite Hdb. simpl. rewrite Hc, Hf, Hsch. simpl.
      unfold iterate. rewrite Hcut. rewrite decide_True by done. simpl.
      by destruct s.
Qed.

(** X24: the handlers need the request's logger and never write to the
    table. Without a logger in the context each of the three handlers
    panics on the type assertion before it reaches the store, leaving
    the state as it was. With one, as long as the host's error page
    leaves the table's rows alone, every call of a handler, failing or
    not, leaves the persisted rows exactly as they were. *)
Theorem handlers_only_read
    (e : Env) (w0 : W) (r : api.Request) (s : State) :
  (api.ctx_log r = false ->
   listActivitiesHandler strconv_Atoi encode_activities renderHTTPError e w0 r s
     = (Panic TypeAssertion, s)
   /\ sessionActivitiesHandler strconv_Atoi sessionID encode_activities
        renderHTTPError e w0 r s = (Panic TypeAssertion, s)
   /\ activityStatsHandler time_Add time_Parse encode_stats renderHTTPError e w0 r s
      = (Panic TypeAssertion, s))
  /\ ((forall r' w' msg x code s',
          rows (disk (after (renderHTTPError r' w' msg x code) s')) = rows (disk s')) ->
      rows (disk (after (listActivitiesHandler strconv_Atoi encode_activities
                           renderHTTPError e w0 r) s)) = rows (disk s)
      /\ rows (disk (after (sessionActivitiesHandler strconv_Atoi sessionID
                              encode_activities renderHTTPError e w0 r) s))
         = rows (disk s)
      /\ rows (disk (after (activityStatsHandler time_Add time_Parse encode_stats
                              renderHTTPError e w0 r) s)) = rows (disk s)).
Proof.
  split.
  - intros Hlog.
    unfold listActivitiesHandler, sessionActivitiesHandler, activityStatsHandler,
      assert_logger. rewrite Hlog. done.
  - intros Hrender.
    unfold listActivitiesHandler, sessionActivitiesHandler, activityStatsHandler,
      assert_logger.
    destruct (api.ctx_log r); [|done].
    assert (Hpage : forall r' w' msg x code s',
              rows (disk s') = rows (disk s) ->
              rows (disk (renderHTTPError r' w' msg x code s').2) = rows (disk s)).
    { intros r' w' msg x code s' <-. apply Hrender. }
    repeat split; run_go;
      (destruct (db s) as [c|]; simpl; [|done]);
      (destruct (closed c); simpl; [by apply Hpage|]);
      (destruct (fault e StepSelect); simpl; [by apply Hpage|]);
      (destruct (has_schema (disk s)); simpl; [|by apply Hpage]);
      unfold iterate; destruct (cut e) as [[k x]|]; simpl; try done;
      case_decide; simpl; try done; by apply Hpage.
Qed.
End QueryAPIFailures.

Lemma listActivitiesHandler_responds_witness :
  limit_param digit_Atoi 100 (api.Query_Get (api_request "-5") "limit") = 100%Z
  /\ exists l,
      result (listActivitiesHandler digit_Atoi count_encoder status_page
                (healthy 40) fresh_conn (api_request "2")) stocked
        = Ret (respond_json (count_encoder l) fresh_conn)
      /\ length l = 2
      /\ StronglySorted stored_desc l
      /\ StronglySorted newest_first l
      /\ Forall (fun a => a ∈ rows (disk stocked)) l.
Proof.
  split.
  - apply (proj1 (proj2 (listActivitiesHandler_responds digit_Atoi count_encoder
                           status_page (healthy 40) fresh_conn (api_request "-5") stocked
                           {| dsn := dbPath; closed := false |}
                           eq_refl eq_refl eq_refl eq_refl eq_refl eq_refl))).
    right. right. simpl. lia.
  - destruct (proj2 (proj2 (proj2 (listActivitiesHandler_responds digit_Atoi count_encoder
                           status_page (healthy 40) fresh_conn (api_request "2") stocked
                           {| dsn := dbPath; closed := false |}
                           eq_refl eq_refl eq_refl eq_refl eq_refl eq_refl))))
      as (l & Hres & Hlen & Hs & Hn & Hin).
    exists l. split; [exact Hres|]. split; [exact Hlen|]. split; [exact Hs|].
    split; [exact (Hn three_rows_follow)|exact Hin].
Defined.


Lemma activityStatsHandler_window_witness :
  exists stats,
    result (activityStatsHandler day_before digit_Parse size_encoder status_page
              (healthy 40) fresh_conn (api_request "")) stocked
      = Ret (respond_json (size_encoder (Some stats)) fresh_conn)
    /\ (forall ty,
          stats !! ty =
            if decide (count_stored (day_before 40 (-24 * Hour)) 40 ty three_rows = 0%Z)
            then None
            else Some (count_stored (day_before 40 (-24 * Hour)) 40 ty three_rows))
    /\ (forall ty,
          stats !! ty =
            if decide (Spec.count_in_window (day_before 40 (-24 * Hour)) 40 ty three_rows
                       = 0%Z)
            then None
            else Some (Spec.count_in_window (day_before 40 (-24 * Hour)) 40 ty three_rows)).
Proof.
  destruct (proj2 (proj2 (proj2 (proj2 (activityStatsHandler_window day_before digit_Parse
                         size_encoder status_page (healthy 40) fresh_conn (api_request "")
                         stocked {| dsn := dbPath; closed := false |}
                         eq_refl eq_refl eq_refl eq_refl eq_refl eq_refl)))))
    as (stats & Hres & Htext & Hinst).
  exists stats. split; [exact Hres|]. split; [exact Htext|].
  apply Hinst. repeat constructor; vm_compute; intros; congruence.
Defined.

Lemma handlers_discard_partial_reads_witness :
  let e := interrupted 40 1 (EnvError "interrupted") in
  result (GetRecentActivities e 100) stocked
    = Ret ([mkActivityLog 3 "s1" "r3" "checkout" "/cart/checkout" "POST" 302 "USD" "" 30],
           Some (EnvError "interrupted"))
  /\ listActivitiesHandler digit_Atoi count_encoder status_page e fresh_conn
       (api_request "") stocked
     = status_page (api.base (api_request "")) fresh_conn "failed to get activities"
         (EnvError "interrupted") 500 (add_issued (SelectRecent 100) stocked).
Proof.
  intros e.
  apply (proj1 (handlers_discard_partial_reads digit_Atoi day_before digit_Parse
                  context_sessionID count_encoder size_encoder status_page
                  e fresh_conn (api_request "") stocked
                  {| dsn := dbPath; closed := false |} 1 (EnvError "interrupted")
                  eq_refl eq_refl eq_refl eq_refl eq_refl eq_refl)).
  simpl. lia.
Defined.

Lemma handlers_only_read_witness :
  let r := api.mkRequest (sample_request "GET" "/api/activities" "/api/activities")
             (fun _ => "") false in
  listActivitiesHandler digit_Atoi count_encoder status_page (healthy 40) fresh_conn r stocked
    = (Panic TypeAssertion, stocked)
  /\ rows (disk (after (activityStatsHandler day_before digit_Parse size_encoder status_page
                          (interrupted 40 0 (EnvError "interrupted")) fresh_conn
                          (api_request "")) stocked)) = three_rows.
Proof.
  intros r. split.
  - apply (proj1 (handlers_only_read digit_Atoi day_before digit_Parse context_sessionID
                    count_encoder size_encoder status_page (healthy 40) fresh_conn r stocked)).
    reflexivity.
  - apply (proj2 (handlers_only_read digit_Atoi day_before digit_Parse context_sessionID
                    count_encoder size_encoder status_page
                    (interrupted 40 0 (EnvError "interrupted")) fresh_conn
                    (api_request "") stocked)).
    intros r' w' msg x code s'. reflexivity.
Defined.
